(** * Excel-to-KML converter (adequacaoequatorial.py): model and properties

    The development follows the body of [main] in
    [src/adequacaoequatorial.py]: the column check (lines 36-38), the row
    loop (lines 53-95) that fills an ElementTree grouped by folder, and
    the serialisation and hand-over to the page (lines 98-135).

    Strings are byte strings holding the UTF-8 form of the Python text;
    the operations the program uses on them (equality, dictionary lookup,
    concatenation, emptiness) agree with the ones on code points. *)

From stdpp Require Import gmap strings list pretty.
From Stdlib Require Import SpecFloat.


(** ** Python values held by the cells of a DataFrame *)

(** A binary64 value, as data: zero, infinity, NaN or [m * 2^e]. *)
Abbreviation pyfloat := spec_float.

Definition prec : Z := 53.
Definition emax : Z := 1024.

Inductive pyval :=
| PyNone                    (* None, and pandas' NaT *)
| PyFloat (x : pyfloat)     (* float / numpy.float64; an empty cell is NaN *)
| PyInt (n : Z)             (* int / numpy.int64 *)
| PyBool (b : bool)
| PyStr (s : string)
| PyDatetime (s : string).  (* Timestamp, datetime, time: carried by its str() *)

#[global] Instance pyfloat_eq_dec : EqDecision pyfloat.
Proof. solve_decision. Defined.

#[global] Instance pyval_eq_dec : EqDecision pyval.
Proof. solve_decision. Defined.

Inductive exn :=
| ValueError | TypeError | OverflowError | IndexError | KeyError | ExpatError.

#[global] Instance exn_eq_dec : EqDecision exn.
Proof. solve_decision. Defined.

(** ** ElementTree elements *)

#[warnings="-register-all"]
Inductive Element :=
| Elem (tag : string) (attrib : list (string * string))
       (text : option string) (children : list Element).

Definition tag (e : Element) : string := let 'Elem t _ _ _ := e in t.
Definition text (e : Element) : option string := let 'Elem _ _ x _ := e in x.
Definition children (e : Element) : list Element := let 'Elem _ _ _ c := e in c.

(** [ET.SubElement(parent, ...)] appends the new element to [parent]. *)
Definition append (child : Element) (parent : Element) : Element :=
  let 'Elem t a x c := parent in Elem t a x (c ++ [child]).

(** ** Library operations the program calls

    [float(s)] on a [str], [str(x)] on a [float] and the three-call
    serialisation [minidom.parseString(ET.tostring(kml, 'utf-8'))
    .toprettyxml(indent="  ")] belong to the interpreter and its
    libraries.  The program is modelled over any implementation of them;
    [Reference] below gives one to evaluate with. *)

Class PyLib := {
  float_of_str : string → option pyfloat;   (* [None]: ValueError *)
  str_of_float : pyfloat → string;
  xml_pretty : Element → exn + string
}.

(** Folder elements are reached both from the [Document] element and
    from the [folders] dictionary, so they live in a store and are
    referred to by location.  Which location a new object gets is up to
    the allocator; it is only known to be unused. *)
Abbreviation loc := positive.

Class Allocator := {
  alloc : gmap loc Element → loc;
  alloc_fresh : ∀ σ, σ !! alloc σ = None
}.

(** ** What the page shows *)

Inductive error_report :=
| InsufficientColumns            (* line 37 *)
| ProcessingError (e : exn).     (* line 138 *)

Inductive ui_event :=
| st_error (r : error_report)
| st_progress (num den : nat)    (* the bar is set to num/den *)
| st_empty                       (* [st.empty()], and [.empty()] on a widget *)
| st_text (s : string)
| st_success
| st_download_button (data : string)
| st_info (total_rows n_folders : nat) (names : string).

(** ** Tables

    A table as the loop sees it: the column labels and, for each row,
    the cells that [row.iloc] reads, in the form [iterrows] presents
    them, that is, the rows of [df.values].  How pandas gets these rows
    from the columns of the frame is [values], under Frames below. *)

Definition Row := list pyval.

Record DataFrame := {
  columns : list string;
  data : list Row
}.

(** [df.iterrows()] over the default [RangeIndex], on the rows of
    [df.values]. *)
Definition iterrows (df : DataFrame) : list (nat * Row) :=
  zip (seq 0 (length (data df))) (data df).

(** ** Frames

    The frame that [pd.read_excel] returns (line 33) holds its cells by
    column, and every column has a dtype.  [df.iterrows()] (line 53)
    makes a Series of each row of [df.values], the array in which all
    cells have been brought to one dtype common to the columns; so what
    [row.iloc] reads in one column depends on the dtypes of all the
    others.  The dtypes are those [read_excel] gives: whole numbers,
    doubles, booleans, dates and objects. *)

Inductive dtype := int64 | float64 | bool_ | datetime64 | object.

#[global] Instance dtype_eq_dec : EqDecision dtype.
Proof. solve_decision. Defined.

Inductive Column :=
| Int64 (cells : list Z)
| Float64 (cells : list pyfloat)
| Bool (cells : list bool)
| Datetime64 (cells : list (option string))   (* [None]: NaT *)
| Object (cells : list pyval).

Definition column_dtype (c : Column) : dtype :=
  match c with
  | Int64 _ => int64
  | Float64 _ => float64
  | Bool _ => bool_
  | Datetime64 _ => datetime64
  | Object _ => object
  end.

Definition column_length (c : Column) : nat :=
  match c with
  | Int64 l => length l
  | Float64 l => length l
  | Bool l => length l
  | Datetime64 l => length l
  | Object l => length l
  end.

Record Frame := {
  frame_columns : list string;   (* [df.columns] *)
  frame_data : list Column;
  frame_len : nat                (* [len(df)] *)
}.

(** Every column has a label and a cell for every row. *)
Definition well_formed_frame (f : Frame) : Prop :=
  length (frame_columns f) = length (frame_data f)
  ∧ Forall (λ c, column_length c = frame_len f) (frame_data f).

#[global] Instance well_formed_frame_dec f : Decision (well_formed_frame f) := _.

(** pandas' [find_common_type]: one dtype if all columns have it; a
    double for whole numbers among doubles; an object for anything
    else, booleans among numbers included.  A frame without columns
    gives an empty array of doubles. *)
Definition find_common_type (ts : list dtype) : dtype :=
  match ts with
  | [] => float64
  | t :: _ =>
      if bool_decide (Forall (λ t', t' = t) ts) then t
      else if bool_decide (Forall (λ t', t' = int64 ∨ t' = float64) ts)
           then float64
           else object
  end.

(** The cells of a column in an array of dtype [t].  Among doubles a
    whole number becomes the nearest double; in every other array a
    frame can give, a cell keeps its value.  A missing date, NaT, is
    to [pd.notna] and to [float] what [None] is. *)
Definition astype (t : dtype) (c : Column) : list pyval :=
  match c with
  | Int64 l =>
      if decide (t = float64)
      then (λ n, PyFloat (binary_normalize prec emax n 0 false)) <$> l
      else PyInt <$> l
  | Float64 l => PyFloat <$> l
  | Bool l => PyBool <$> l
  | Datetime64 l => from_option PyDatetime PyNone <$> l
  | Object l => l
  end.

(** [df.values], row by row.  In a well-formed frame every column has
    a cell for every row, and the default is never taken. *)
Definition values (f : Frame) : list Row :=
  let t := find_common_type (column_dtype <$> frame_data f) in
  (λ i, (λ c, default PyNone (astype t c !! i)) <$> frame_data f)
    <$> seq 0 (frame_len f).

(** The frame as the loop of line 53 sees it. *)
Definition to_table (f : Frame) : DataFrame :=
  {| columns := frame_columns f; data := values f |}.

(** Two frames with the same columns at the positions the loop reads. *)
Definition same_used_columns (f f' : Frame) : Prop :=
  Forall (λ k, frame_data f !! k = frame_data f' !! k) [1; 2; 3; 5; 8].

(** ** Program state, and the state-and-exception monad *)

Record state := State {
  store : gmap loc Element;        (* the Folder elements *)
  document : list loc;             (* children of the Document element *)
  folders : list (string * loc);   (* the dict [folders], in insertion order *)
  ui : list ui_event
}.

Definition M (A : Type) : Type := state → (exn + A) * state.

#[global] Instance M_ret : MRet M := λ A x st, (inr x, st).
#[global] Instance M_bind : MBind M := λ A B f m st,
  match m st with
  | (inr x, st') => f x st'
  | (inl e, st') => (inl e, st')
  end.

Definition raise {A} (e : exn) : M A := λ st, (inl e, st).

Definition lift {A} (r : exn + A) : M A := λ st, (r, st).

Definition show (ev : ui_event) : M unit := λ st,
  (inr (), State (store st) (document st) (folders st) (ui st ++ [ev])).

Fixpoint for_each {A} (body : A → M unit) (l : list A) : M unit :=
  match l with
  | [] => mret ()
  | x :: l' => body x ;; for_each body l'
  end.

(** ** Built-ins on cell values *)

(** [pd.notna(x)] *)
Definition pd_notna (x : pyval) : bool :=
  match x with
  | PyNone | PyFloat S754_nan => false
  | _ => true
  end.

(** ** Point records and folders (spec, section 3) *)

Record PointRecord := {
  name : string;
  latitude : pyfloat;
  longitude : pyfloat;
  folderName : string;
  description : string
}.

Definition Folder : Type := string * list PointRecord.

Section Program.
Context {L : PyLib}.

(** [str(x)] *)
Definition str (x : pyval) : string :=
  match x with
  | PyNone => "None"
  | PyFloat f => str_of_float f
  | PyInt n => pretty n
  | PyBool b => if b then "True" else "False"
  | PyStr s => s
  | PyDatetime s => s
  end.

(** [float(x)]; an [int] too large for a double raises OverflowError. *)
Definition float (x : pyval) : exn + pyfloat :=
  match x with
  | PyNone => inl TypeError
  | PyFloat f => inr f
  | PyInt n =>
      match binary_normalize prec emax n 0 false with
      | S754_infinity _ => inl OverflowError
      | f => inr f
      end
  | PyBool b => inr (binary_normalize prec emax (if b then 1 else 0) 0 false)
  | PyStr s =>
      match float_of_str s with
      | Some f => inr f
      | None => inl ValueError
      end
  | PyDatetime _ => inl TypeError
  end.

(** [row.iloc[k]] *)
Definition iloc (row : Row) (k : nat) : M pyval :=
  match row !! k with
  | Some x => mret x
  | None => raise IndexError
  end.

(** ** Dictionary operations on [folders] *)

Definition dict_get (k : string) (d : list (string * loc)) : option loc :=
  snd <$> find (λ kv, bool_decide (kv.1 = k)) d.

Definition dict_contains (k : string) (d : list (string * loc)) : bool :=
  bool_decide (is_Some (dict_get k d)).

Fixpoint dict_set (k : string) (v : loc) (d : list (string * loc))
  : list (string * loc) :=
  match d with
  | [] => [(k, v)]
  | (k', v') :: d' =>
      if decide (k' = k) then (k, v) :: d' else (k', v') :: dict_set k v d'
  end.

(** ** The row loop, lines 53-95 *)

Section Loop.
Context {Al : Allocator}.

(** Lines 75-78: a new Folder under Document, with its [name] child,
    remembered in [folders]. *)
Definition new_folder (folder_name : string) : M unit := λ st,
  let folder := alloc (store st) in
  let name_element := Elem "name" [] (Some folder_name) [] in
  (inr (),
   State (<[folder := append name_element (Elem "Folder" [] None [])]> (store st))
         (document st ++ [folder])
         (dict_set folder_name folder (folders st))
         (ui st)).

(** [folders[folder_name]] *)
Definition folders_get (folder_name : string) : M loc := λ st,
  match dict_get folder_name (folders st) with
  | Some l => (inr l, st)
  | None => (inl KeyError, st)
  end.

(** Lines 81-95.  The Placemark is attached to its folder once complete:
    nothing on these lines can raise, and nothing reads the folder in
    between. *)
Definition make_placemark (nome description : string) (lon lat : pyfloat)
  : Element :=
  let placemark := Elem "Placemark" [] None [] in
  let name_el := Elem "name" [] (Some nome) [] in
  let placemark := append name_el placemark in
  let placemark :=
    if bool_decide (description ≠ "")
    then append (Elem "description" [] (Some description) []) placemark
    else placemark in
  let coordinates :=
    Elem "coordinates" []
         (Some (str_of_float lon +:+ "," +:+ str_of_float lat +:+ ",0")) [] in
  let point := append coordinates (Elem "Point" [] None []) in
  append point placemark.

Definition add_placemark (folder : loc) (placemark : Element) : M unit := λ st,
  (inr (),
   State (alter (append placemark) folder (store st))
         (document st) (folders st) (ui st)).

Definition folders_contains (folder_name : string) : M bool := λ st,
  (inr (dict_contains folder_name (folders st)), st).

(** Lines 67-69, the body of the inner [try]. *)
Definition try_float (lat lon : pyval) : exn + pyfloat * pyfloat :=
  match float lat with
  | inl e => inl e
  | inr lat =>
      match float lon with
      | inl e => inl e
      | inr lon => inr (lat, lon)
      end
  end.

(** Line 70: [except (ValueError, TypeError)]. *)
Definition caught (e : exn) : bool :=
  match e with
  | ValueError | TypeError => true
  | _ => false
  end.

Definition process_row (total_rows : nat) (ir : nat * Row) : M unit :=
  let '(index, row) := ir in
  show (st_progress (index + 1) total_rows) ;;
  show (st_text ("Processando linha " +:+ pretty (index + 1) +:+ " de "
                   +:+ pretty total_rows +:+ "...")) ;;
  c1 ← iloc row 1;
  let nome := if pd_notna c1 then str c1 else "Ponto_" +:+ pretty (index + 1) in
  lat ← iloc row 2;
  lon ← iloc row 3;
  c5 ← iloc row 5;
  let folder_name := if pd_notna c5 then str c5 else "Geral" in
  c8 ← iloc row 8;
  let description := if pd_notna c8 then str c8 else "" in
  match try_float lat lon with
  | inl e => if caught e then mret () (* continue *) else raise e
  | inr (lat, lon) =>
      known ← folders_contains folder_name;
      (if known : bool then mret () else new_folder folder_name) ;;
      folder ← folders_get folder_name;
      add_placemark folder (make_placemark nome description lon lat)
  end.

(** ** Lines 41-135 *)

Definition get : M state := λ st, (inr st, st).

(** The tree under [kml] as [ET.tostring] walks it. *)
Definition kml_tree (st : state) : Element :=
  let kml := Elem "kml" [("xmlns", "http://www.opengis.net/kml/2.2")] None [] in
  let folder_elements := omap (λ l, store st !! l) (document st) in
  append (Elem "Document" [] None folder_elements) kml.

(** Lines 98-100: the tree is read, not changed. *)
Definition serialize : M string :=
  st ← get;
  lift (xml_pretty (kml_tree st)).

(** Lines 41-100. *)
Definition convert (df : DataFrame) : M string :=
  show (st_progress 0 1) ;;
  show st_empty ;;
  let total_rows := length (data df) in
  for_each (process_row total_rows) (iterrows df) ;;
  serialize.

(** Lines 103-135.  The temporary file is written, read back and
    removed; the bytes offered for download are the encoded text. *)
Definition deliver (df : DataFrame) (pretty_xml : string) : M unit :=
  show st_empty ;;
  show st_empty ;;
  show st_success ;;
  show (st_download_button pretty_xml) ;;
  st ← get;
  show (st_info (length (data df)) (length (folders st))
                (String.concat ", " (folders st).*1)).

Definition initial : state := State ∅ [] [] [].

(** The handler of the button, lines 31-138, once the file is read. *)
Definition main (df : DataFrame) : list ui_event :=
  if decide (length (columns df) < 9) then [st_error InsufficientColumns]
  else
    match (convert df ≫= deliver df) initial with
    | (inr _, st) => ui st
    | (inl e, st) => ui st ++ [st_error (ProcessingError e)]
    end.

(** The tree handed to [ET.tostring] after the rows [irows]. *)
Definition build_rows (total_rows : nat) (irows : list (nat * Row))
  : exn + Element :=
  match for_each (process_row total_rows) irows initial with
  | (inr _, st) => inr (kml_tree st)
  | (inl e, _) => inl e
  end.

Definition build (df : DataFrame) : exn + Element :=
  build_rows (length (data df)) (iterrows df).

(** States the loop can be in between two rows. *)
Definition reachable (st : state) : Prop :=
  ∃ total_rows irows,
    for_each (process_row total_rows) irows initial = (inr (), st).

End Loop.

(** ** The transformation, row by row, without the store

    [extract] is what lines 60-71 make of one row, [add_record] what
    lines 74-95 do with the record, on folders kept as plain lists. *)

Definition extract (index : nat) (row : Row) : exn + option PointRecord :=
  match row !! 1, row !! 2, row !! 3, row !! 5, row !! 8 with
  | Some c1, Some lat, Some lon, Some c5, Some c8 =>
      match try_float lat lon with
      | inl e => if caught e then inr None else inl e
      | inr (lat, lon) =>
          inr (Some {|
            name := if pd_notna c1 then str c1
                    else "Ponto_" +:+ pretty (index + 1);
            latitude := lat;
            longitude := lon;
            folderName := if pd_notna c5 then str c5 else "Geral";
            description := if pd_notna c8 then str c8 else "" |})
      end
  | _, _, _, _, _ => inl IndexError
  end.

(** The rows for both of whose coordinate cells the built-in [float]
    returns a value, whatever the value. *)
Definition float_returns (c : pyval) : bool :=
  if float c is inr _ then true else false.

Definition float_accepts (row : Row) : bool :=
  match row !! 2, row !! 3 with
  | Some lat, Some lon => float_returns lat && float_returns lon
  | _, _ => false
  end.

Fixpoint add_record (r : PointRecord) (d : list Folder) : list Folder :=
  match d with
  | [] => [(folderName r, [r])]
  | (n, rs) :: d' =>
      if decide (n = folderName r) then (n, rs ++ [r]) :: d'
      else (n, rs) :: add_record r d'
  end.

Definition group (recs : list PointRecord) : list Folder :=
  foldl (λ d r, add_record r d) [] recs.

Definition placemark_of (r : PointRecord) : Element :=
  make_placemark (name r) (description r) (longitude r) (latitude r).

Definition folder_element (f : Folder) : Element :=
  Elem "Folder" [] None
       (Elem "name" [] (Some f.1) [] :: (placemark_of <$> f.2)).

Definition document_tree (d : list Folder) : Element :=
  Elem "kml" [("xmlns", "http://www.opengis.net/kml/2.2")] None
       [Elem "Document" [] None (folder_element <$> d)].

Definition row_events (total_rows index : nat) : list ui_event :=
  [st_progress (index + 1) total_rows;
   st_text ("Processando linha " +:+ pretty (index + 1) +:+ " de "
              +:+ pretty total_rows +:+ "...")].

Definition spec_row (total_rows : nat) (ir : nat * Row)
    (a : list Folder * list ui_event)
  : (exn + unit) * (list Folder * list ui_event) :=
  let tr := a.2 ++ row_events total_rows ir.1 in
  match extract ir.1 ir.2 with
  | inl e => (inl e, (a.1, tr))
  | inr None => (inr (), (a.1, tr))
  | inr (Some r) => (inr (), (add_record r a.1, tr))
  end.

Fixpoint spec_loop (total_rows : nat) (irows : list (nat * Row))
    (a : list Folder * list ui_event)
  : (exn + unit) * (list Folder * list ui_event) :=
  match irows with
  | [] => (inr (), a)
  | ir :: rest =>
      match spec_row total_rows ir a with
      | (inr _, a') => spec_loop total_rows rest a'
      | (inl e, a') => (inl e, a')
      end
  end.

(** How a state of the program stands for folders kept as lists: each
    entry of [folders] points at the element of its folder, and the
    Document element lists the same locations in the same order. *)
Definition held_by (σ : gmap loc Element) (kl : string * loc) (f : Folder)
  : Prop :=
  kl.1 = f.1 ∧ σ !! kl.2 = Some (folder_element f).

Definition represents (st : state) (a : list Folder * list ui_event) : Prop :=
  Forall2 (held_by (store st)) (folders st) a.1 ∧
  document st = (folders st).*2 ∧
  NoDup (folders st).*2 ∧
  ui st = a.2.

(** The page after [main], computed on folder lists. *)
Definition spec_main (df : DataFrame) : list ui_event :=
  if decide (length (columns df) < 9) then [st_error InsufficientColumns]
  else
    let total_rows := length (data df) in
    match spec_loop total_rows (iterrows df) ([], [st_progress 0 1; st_empty])
    with
    | (inl e, (_, tr)) => tr ++ [st_error (ProcessingError e)]
    | (inr _, (d, tr)) =>
        match xml_pretty (document_tree d) with
        | inl e => tr ++ [st_error (ProcessingError e)]
        | inr pretty_xml =>
            tr ++ [st_empty; st_empty; st_success;
                   st_download_button pretty_xml;
                   st_info total_rows (length d) (String.concat ", " d.*1)]
        end
    end.

(** Two rows with the same cells in the columns the loop reads. *)
Definition same_used_cells (row row' : Row) : Prop :=
  Forall (λ k, row !! k = row' !! k) [1; 2; 3; 5; 8].

#[global] Instance same_used_cells_dec row row' :
  Decision (same_used_cells row row') := _.

(** The records of the rows that pass, in row order. *)
Definition records (irows : list (nat * Row)) : list PointRecord :=
  omap (λ ir, if extract ir.1 ir.2 is inr (Some r) then Some r else None) irows.

End Program.

(** Distinct names in order of first appearance. *)
Fixpoint first_seen (l : list string) : list string :=
  match l with
  | [] => []
  | x :: l' => x :: filter (λ y, y ≠ x) (first_seen l')
  end.

(** Folders in order of first appearance, each with its records in
    input order. *)
Definition in_folder (n : string) (recs : list PointRecord) : list PointRecord :=
  filter (λ r, folderName r = n) recs.

Definition grouped (recs : list PointRecord) : list Folder :=
  (λ n, (n, in_folder n recs)) <$> first_seen (folderName <$> recs).

(** ** Reading a tree, in the manner of [Element.find] and [findall] *)

Definition find_child (t : string) (e : Element) : option Element :=
  find (λ c, bool_decide (tag c = t)) (children e).

Definition findall (t : string) (e : Element) : list Element :=
  filter (λ c, tag c = t) (children e).

Definition findtext (t : string) (e : Element) : option string :=
  find_child t e ≫= text.

Definition folder_elements (kml : Element) : list Element :=
  findall "Document" kml ≫= findall "Folder".

Definition folder_names (kml : Element) : list (option string) :=
  findtext "name" <$> folder_elements kml.

Definition placemarks_in (folder_name : string) (kml : Element) : list Element :=
  filter (λ f, findtext "name" f = Some folder_name) (folder_elements kml)
    ≫= findall "Placemark".

Definition placemarks (kml : Element) : list Element :=
  folder_elements kml ≫= findall "Placemark".

Definition coordinates_text (placemark : Element) : option string :=
  find_child "Point" placemark ≫= findtext "coordinates".

Definition is_finite (x : pyfloat) : bool :=
  match x with
  | S754_zero _ | S754_finite _ _ _ => true
  | S754_infinity _ | S754_nan => false
  end.


(** "Latitude and longitude both parse as numbers", a number being
    what the spec's validation rule asks for: a finite decimal number. *)
Definition parses_as_number `{PyLib} (c : pyval) : bool :=
  match float c with
  | inr x => is_finite x
  | inl _ => false
  end.

Definition both_parse_as_numbers `{PyLib} (row : Row) : bool :=
  match row !! 2, row !! 3 with
  | Some lat, Some lon => parses_as_number lat && parses_as_number lon
  | _, _ => false
  end.

(** Rows whose two coordinate cells are filled in. *)
Definition coordinates_present (row : Row) : bool :=
  match row !! 2, row !! 3 with
  | Some lat, Some lon => pd_notna lat && pd_notna lon
  | _, _ => false
  end.

(** What the loop shows for a row. *)
Definition is_row_event (ev : ui_event) : Prop :=
  match ev with
  | st_progress _ _ | st_text _ => True
  | _ => False
  end.

(** ** A reference implementation of the library operations

    For evaluating the program on examples.  It follows CPython 3.11 on
    ASCII input: [float] also accepts other Unicode digits and spaces,
    which are not covered here. *)

Module Reference.

(** *** [float(s)] on a string: white space, a sign, then [inf],
    [infinity], [nan] or a decimal numeral with an optional exponent *)

Definition codes (s : string) : list N :=
  Ascii.N_of_ascii <$> String.list_ascii_of_string s.

Definition uncodes (l : list N) : string :=
  String.string_of_list_ascii (Ascii.ascii_of_N <$> l).

Definition is_space (c : N) : bool :=
  ((9 <=? c) && (c <=? 13) || (c =? 32))%N.

Definition is_digit (c : N) : bool := ((48 <=? c) && (c <=? 57))%N.

Definition lower (c : N) : N :=
  if ((65 <=? c) && (c <=? 90))%N then (c + 32)%N else c.

Fixpoint lstrip (l : list N) : list N :=
  match l with
  | c :: l' => if is_space c then lstrip l' else l
  | [] => []
  end.

Definition strip (l : list N) : list N := rev (lstrip (rev (lstrip l))).

(** [digit (["_"] digit)*]: the digits read and what is left. *)
Fixpoint digitpart (after_digit : bool) (l : list N) : list N * list N :=
  match l with
  | c :: l' =>
      if is_digit c then
        let '(ds, rest) := digitpart true l' in ((c - 48)%N :: ds, rest)
      else if (c =? 95)%N && after_digit
              && match l' with c' :: _ => is_digit c' | [] => false end
      then digitpart false l'
      else ([], l)
  | [] => ([], [])
  end.

Definition number_of (ds : list N) : Z :=
  foldl (λ a d, 10 * a + Z.of_N d)%Z 0%Z ds.

Definition sign_of (l : list N) : bool * list N :=
  match l with
  | 45%N :: l' => (true, l')
  | 43%N :: l' => (false, l')
  | _ => (false, l)
  end.

Definition exponent (l : list N) : option Z :=
  match l with
  | [] => Some 0%Z
  | c :: l' =>
      if (lower c =? 101)%N then
        let '(s, l'') := sign_of l' in
        match digitpart false l'' with
        | (d :: ds, []) =>
            Some (if s : bool then (- number_of (d :: ds))%Z
                  else number_of (d :: ds))
        | _ => None
        end
      else None
  end.

(** The double nearest to [m * 10^k], ties to even. *)
Definition dec_to_float (s : bool) (m k : Z) : pyfloat :=
  match m with
  | Zpos p =>
      if (0 <=? k)%Z then binary_round prec emax s (p * Z.to_pos (10 ^ k)) 0
      else
        let '(q, e, l) :=
          SFdiv_core_binary prec emax (Zpos p) 0 (10 ^ (- k)) 0 in
        binary_round_aux prec emax s q e l
  | _ => S754_zero s
  end.

Definition parse_float (s : string) : option pyfloat :=
  let '(sg, l) := sign_of (strip (codes s)) in
  let word := lower <$> l in
  if decide (word = codes "inf" ∨ word = codes "infinity")
  then Some (S754_infinity sg)
  else if decide (word = codes "nan") then Some S754_nan
  else
    let '(ip, l1) := digitpart false l in
    let '(fp, l2) :=
      match l1 with
      | 46%N :: l1' => digitpart false l1'
      | _ => ([], l1)
      end in
    match ip ++ fp with
    | [] => None
    | ds =>
        k ← exponent l2;
        Some (dec_to_float sg (number_of ds) (k - Z.of_nat (length fp)))
    end.

(** *** [repr(x)]: the shortest digits that read back as [x] *)

Definition dlen (n : Z) : Z := Z.of_nat (String.length (pretty n)).

(** [num/den < 10^k] *)
Definition below_pow10 (num den k : Z) : bool :=
  if (0 <=? k)%Z then (num <? den * 10 ^ k)%Z
  else (num * 10 ^ (- k) <? den)%Z.

(** [k] with [10^(k-1) <= num/den < 10^k] *)
Definition decimal_point (num den : Z) : Z :=
  let k := (dlen num - dlen den)%Z in
  if below_pow10 num den k then k else (k + 1)%Z.

(** An [n]-digit numeral next to [num/den] that reads back as [x], the
    nearer one if both neighbours do. *)
Definition candidate (x : pyfloat) (num den k n : Z) : option Z :=
  let '(p, q) :=
    if (0 <=? n - k)%Z then (num * 10 ^ (n - k), den)%Z
    else (num, den * 10 ^ (k - n))%Z in
  let lo := (p `div` q)%Z in
  let r := (p `mod` q)%Z in
  let hi := (lo + 1)%Z in
  let ok_lo := bool_decide (dec_to_float false lo (k - n) = x) in
  let ok_hi := bool_decide (dec_to_float false hi (k - n) = x) in
  if (r =? 0)%Z then (if ok_lo then Some lo else None)
  else if ok_lo && ok_hi then
    match (2 * r ?= q)%Z with
    | Lt => Some lo
    | Gt => Some hi
    | Eq => Some (if Z.even lo then lo else hi)
    end
  else if ok_lo then Some lo
  else if ok_hi then Some hi
  else None.

Fixpoint shortest (fuel : nat) (x : pyfloat) (num den k n : Z) : Z * Z :=
  match candidate x num den k n, fuel with
  | Some d, _ => (d, (k - n)%Z)
  | None, S fuel' => shortest fuel' x num den k (n + 1)%Z
  | None, O => (0%Z, 0%Z)
  end.

Fixpoint rstrip0 (l : list N) : list N :=
  match l with
  | [] => []
  | c :: l' =>
      match rstrip0 l' with
      | [] => if (c =? 48)%N then [] else [c]
      | t => c :: t
      end
  end.

Definition zeros (n : Z) : list N := replicate (Z.to_nat n) 48%N.

Definition two_digits (n : Z) : list N :=
  if (n <? 10)%Z then 48%N :: codes (pretty n) else codes (pretty n).

(** The layout of [repr]: digits [ds], decimal point after [dp] digits. *)
Definition layout (ds : list N) (dp : Z) : list N :=
  let n := Z.of_nat (length ds) in
  if ((dp <=? -4) || (16 <? dp))%Z then
    let e := (dp - 1)%Z in
    take 1 ds ++ (if (1 <? n)%Z then 46%N :: drop 1 ds else [])
      ++ [101%N; if (e <? 0)%Z then 45%N else 43%N] ++ two_digits (Z.abs e)
  else if (dp <=? 0)%Z then [48%N; 46%N] ++ zeros (- dp) ++ ds
  else if (n <=? dp)%Z then ds ++ zeros (dp - n) ++ [46%N; 48%N]
  else take (Z.to_nat dp) ds ++ [46%N] ++ drop (Z.to_nat dp) ds.

Definition repr_float (x : pyfloat) : string :=
  match x with
  | S754_nan => "nan"
  | S754_infinity s => if s then "-inf" else "inf"
  | S754_zero s => if s then "-0.0" else "0.0"
  | S754_finite s m e =>
      let x := binary_round prec emax false m e in
      let '(num, den) :=
        if (0 <=? e)%Z then (Zpos m * 2 ^ e, 1)%Z else (Zpos m, 2 ^ (- e))%Z in
      let k := decimal_point num den in
      let '(d, e10) := shortest 16 x num den k 1 in
      let all := codes (pretty d) in
      (if s then "-" else "")
        +:+ uncodes (layout (rstrip0 all) (e10 + Z.of_nat (length all)))
  end.

(** *** Serialisation: [ET.tostring], [minidom.parseString], then
    [toprettyxml(indent="  ")] *)

(** Line ends as the parser hands them on: CR LF and CR become LF. *)
Fixpoint normalize (l : list N) : list N :=
  match l with
  | [] => []
  | 13%N :: l' =>
      10%N :: match l' with
              | 10%N :: l'' => normalize l''
              | _ => normalize l'
              end
  | c :: l' => c :: normalize l'
  end.

(** Characters the parser refuses: C0 controls other than TAB, LF, CR,
    and U+FFFE, U+FFFF. *)
Fixpoint well_formed (l : list N) : bool :=
  match l with
  | [] => true
  | c :: l' =>
      (if (c <? 32)%N then bool_decide (c ∈ [9; 10; 13]%N) else true)
      && match l with
         | 239%N :: 191%N :: d :: _ => negb ((d =? 190)%N || (d =? 191)%N)
         | _ => true
         end
      && well_formed l'
  end.

Definition escape (l : list N) : list N :=
  l ≫= λ c,
    if (c =? 38)%N then codes "&amp;"
    else if (c =? 60)%N then codes "&lt;"
    else if (c =? 34)%N then codes "&quot;"
    else if (c =? 62)%N then codes "&gt;"
    else [c].

Definition write_attrs (a : list (string * string)) : list N :=
  a ≫= λ kv, [32%N] ++ codes kv.1 ++ [61%N; 34%N] ++ escape (codes kv.2) ++ [34%N].

Definition data_of (x : option string) : list N :=
  match x with
  | Some s => normalize (codes s)
  | None => []
  end.

(** [Element.writexml(writer, indent, "  ", "\n")] *)
Fixpoint writexml (indent : list N) (e : Element) : list N :=
  let 'Elem t a x cs := e in
  let start := indent ++ [60%N] ++ codes t ++ write_attrs a in
  let stop := [60%N; 47%N] ++ codes t ++ [62%N; 10%N] in
  match data_of x, cs with
  | [], [] => start ++ [47%N; 62%N; 10%N]
  | d, [] => start ++ [62%N] ++ escape d ++ stop
  | d, _ =>
      let inner := indent ++ [32%N; 32%N] in
      start ++ [62%N; 10%N]
        ++ match d with [] => [] | _ => escape (inner ++ d ++ [10%N]) end
        ++ flat_map (writexml inner) cs
        ++ indent ++ stop
  end.

Fixpoint texts (e : Element) : list string :=
  let 'Elem _ _ x cs := e in
  match x with Some s => [s] | None => [] end ++ flat_map texts cs.

Definition toprettyxml (e : Element) : exn + string :=
  if forallb (λ s, well_formed (codes s)) (texts e)
  then inr (uncodes (codes "<?xml version=" ++ [34%N] ++ codes "1.0" ++ [34%N]
                       ++ codes " ?>" ++ [10%N] ++ writexml [] e))
  else inl ExpatError.

Definition lib : PyLib := Build_PyLib parse_float repr_float toprettyxml.

(** An allocator: the least location not in use. *)
Definition first_free : Allocator :=
  Build_Allocator (λ σ, fresh (dom σ))
                  (λ σ, proj1 (not_elem_of_dom σ _) (is_fresh (dom σ))).

End Reference.


(** ** Example tables *)

Module Examples.

Definition header : list string :=
  ["A"; "Nome"; "Latitude"; "Longitude"; "E"; "Pasta"; "G"; "H"; "Descricao"].

(** An empty cell. *)
Definition blank : pyval := PyFloat S754_nan.

Definition number (negative : bool) (m : positive) (e : Z) : pyval :=
  PyFloat (S754_finite negative m e).

(** The example of the spec (section 8), followed by a row without name,
    folder and description, a row whose latitude is the text N/A, and a
    second point for the first folder. *)
Definition sample : DataFrame := {|
  columns := header;
  data := [
    [PyInt 1; PyStr "Pt A"; number true 6628876439024304 (-48);
     number true 6563053515720517 (-47); blank; PyStr "SP"; blank; blank;
     PyStr "desc1"];
    [PyInt 2; PyStr "Pt B"; number true 6447690996515655 (-48);
     number true 6076045511015740 (-47); blank; PyStr "RJ"; blank; blank;
     blank];
    [PyInt 3; blank; number true 8893201889173176 (-49);
     number true 6740185718564533 (-47); blank; blank; blank; blank; blank];
    [PyInt 4; PyStr "Pt D"; PyStr "N/A"; PyStr "-43.9345"; blank; PyStr "MG";
     blank; blank; PyStr "desc4"];
    [PyInt 5; PyStr "Pt E"; PyStr " -19.9167 "; PyInt (-44); blank; PyStr "SP";
     blank; blank; PyStr ""]
  ]
|}.

(** Eight columns only. *)
Definition narrow : DataFrame := {|
  columns := take 8 header;
  data := [take 8 [PyInt 1; PyStr "Pt A"; number true 6628876439024304 (-48);
                   number true 6563053515720517 (-47); blank; PyStr "SP";
                   blank; blank]]
|}.


(** Name and folder cells holding the empty string. *)
Definition empty_text : DataFrame := {|
  columns := header;
  data := [
    [PyInt 1; PyStr ""; number true 6628876439024304 (-48);
     number true 6563053515720517 (-47); blank; PyStr ""; blank; blank;
     PyStr ""]
  ]
|}.

(** Folder names that differ in case or by a blank. *)
Definition spellings : DataFrame := {|
  columns := header;
  data :=
    (λ f, [blank; PyStr "P"; PyInt 1; PyInt 2; blank; PyStr f; blank; blank;
           blank]) <$> ["SP"; "sp"; "SP "; "SP"]
|}.

(** The document built from [sample], and the records of its third and
    fourth rows that pass. *)
Definition sample_tree : Element :=
  Eval vm_compute in
    match @build Reference.lib Reference.first_free sample with
    | inr tree => tree
    | inl _ => Elem "" [] None []
    end.

Definition sample_ponto : PointRecord :=
  Eval vm_compute in
    match data sample !! 2 with
    | Some row =>
        match @extract Reference.lib 2 row with
        | inr (Some r) => r
        | _ => Build_PointRecord "" S754_nan S754_nan "" ""
        end
    | None => Build_PointRecord "" S754_nan S754_nan "" ""
    end.


Definition empty_text_tree : Element :=
  Eval vm_compute in
    match @build Reference.lib Reference.first_free empty_text with
    | inr tree => tree
    | inl _ => Elem "" [] None []
    end.

End Examples.

(** ** Notions for the properties of a whole run *)

(** The events of the first [n] rows of a table of [total_rows] rows. *)
Definition rows_events (total_rows n : nat) : list ui_event :=
  seq 0 n ≫= row_events total_rows.

Definition is_error (ev : ui_event) : bool :=
  match ev with
  | st_error _ => true
  | _ => false
  end.

Definition is_download (ev : ui_event) : bool :=
  match ev with
  | st_download_button _ => true
  | _ => false
  end.

(** What [st.progress] accepts: a fraction between 0 and 1. *)
Definition progress_in_range (ev : ui_event) : Prop :=
  match ev with
  | st_progress num den => num ≤ den ∧ 0 < den
  | _ => True
  end.

(** A table as pandas holds it: every row has a cell for every column. *)
Definition rectangular (df : DataFrame) : Prop :=
  Forall (λ row : Row, length row = length (columns df)) (data df).

#[global] Instance rectangular_dec df : Decision (rectangular df) := _.

(** An [int] that [float] refuses with OverflowError. *)
Definition too_large (c : pyval) : bool :=
  match c with
  | PyInt n =>
      match binary_normalize prec emax n 0 false with
      | S754_infinity _ => true
      | _ => false
      end
  | _ => false
  end.

(** The forms lines 81-95 give a Placemark, and lines 75-81 a Folder. *)
Definition placemark_shaped (p : Element) : Prop :=
  ∃ nome coords,
    p = Elem "Placemark" [] None
          [Elem "name" [] (Some nome) [];
           Elem "Point" [] None [Elem "coordinates" [] (Some coords) []]]
    ∨ ∃ desc, desc ≠ ""
        ∧ p = Elem "Placemark" [] None
                [Elem "name" [] (Some nome) [];
                 Elem "description" [] (Some desc) [];
                 Elem "Point" [] None
                   [Elem "coordinates" [] (Some coords) []]].

Definition folder_shaped (f : Element) : Prop :=
  ∃ n p ps,
    f = Elem "Folder" [] None (Elem "name" [] (Some n) [] :: p :: ps)
    ∧ Forall placemark_shaped (p :: ps).

(** *** The name of the file offered, line 121 *)

Fixpoint starts_with (old s : string) : bool :=
  match old, s with
  | EmptyString, _ => true
  | String a old', String b s' => bool_decide (a = b) && starts_with old' s'
  | String _ _, EmptyString => false
  end.

(** Left to right, without overlap: after a match the next
    [length old - 1] characters are part of it and are passed over. *)
Fixpoint replace_from (old new : string) (skip : nat) (s : string) : string :=
  match s with
  | EmptyString => EmptyString
  | String c s' =>
      match skip with
      | S k => replace_from old new k s'
      | O =>
          if starts_with old s
          then new +:+ replace_from old new (String.length old - 1) s'
          else String c (replace_from old new 0 s')
      end
  end.

Fixpoint after_each (new s : string) : string :=
  match s with
  | EmptyString => EmptyString
  | String c s' => String c (new +:+ after_each new s')
  end.

(** [s.replace(old, new)] *)
Definition str_replace (old new s : string) : string :=
  if decide (old = "") then new +:+ after_each new s
  else replace_from old new 0 s.

(** [uploaded_file.name.replace('.xlsx', '.kml')] *)
Definition download_file_name (name : string) : string :=
  str_replace ".xlsx" ".kml" name.

Definition occurs (old s : string) : Prop := ∃ a b, s = a +:+ old +:+ b.

(** [old in s] *)
Fixpoint contains (old s : string) : bool :=
  starts_with old s
  || match s with
     | EmptyString => false
     | String _ s' => contains old s'
     end.

(** ** Further example tables *)

Module MoreExamples.
Import Examples.

(** An integer latitude beyond the range of a double, in the second row. *)
Definition overflowing : DataFrame := {|
  columns := header;
  data := [
    [PyInt 1; PyStr "Pt A"; number true 6628876439024304 (-48);
     number true 6563053515720517 (-47); blank; PyStr "SP"; blank; blank;
     blank];
    [PyInt 2; PyStr "Pt B"; PyInt (10 ^ 400);
     number true 6076045511015740 (-47); blank; PyStr "RJ"; blank; blank;
     blank];
    [PyInt 3; PyStr "Pt C"; number true 8893201889173176 (-49);
     number true 6740185718564533 (-47); blank; PyStr "SP"; blank; blank;
     blank]
  ]
|}.

(** A name with a character no XML document may hold (vertical tab). *)
Definition unserialisable : DataFrame := {|
  columns := header;
  data := [
    [PyInt 1; PyStr (String (Ascii.ascii_of_nat 11) "Pt A");
     number true 6628876439024304 (-48);
     number true 6563053515720517 (-47); blank; PyStr "SP"; blank; blank;
     blank]
  ]
|}.

(** Headers only. *)
Definition no_rows : DataFrame := {| columns := header; data := [] |}.

Definition sample_xml : string :=
  Eval vm_compute in
    match Reference.toprettyxml sample_tree with
    | inr xml => xml
    | inl _ => EmptyString
    end.

(** [sample] after its first two rows. *)
Definition sample_midway : state :=
  Eval vm_compute in
    (@for_each _ (@process_row Reference.lib Reference.first_free 5)
       (take 2 (iterrows sample)) initial).2.

Definition sample_after_third : state :=
  Eval vm_compute in
    (@for_each _ (@process_row Reference.lib Reference.first_free 5)
       (take 3 (iterrows sample)) initial).2.

(** A latitude spelt inf, in a table without empty coordinate cells. *)
Definition spelt_inf : DataFrame := {|
  columns := header;
  data := [
    [PyInt 1; PyStr "Pt A"; PyStr "inf"; number true 6563053515720517 (-47);
     blank; PyStr "SP"; blank; blank; blank]
  ]
|}.

Definition spelt_inf_tree : Element :=
  Eval vm_compute in
    match @build Reference.lib Reference.first_free spelt_inf with
    | inr tree => tree
    | inl _ => Elem "" [] None []
    end.

Definition nan_column : Column := Float64 [S754_nan; S754_nan].

(** Points named by whole numbers, in a sheet of numbers only. *)
Definition numbered : Frame := {|
  frame_columns := header;
  frame_data := [
    Int64 [1%Z; 2%Z];
    Int64 [7%Z; 12%Z];
    Float64 [S754_finite true 6628876439024304 (-48);
             S754_finite true 6447690996515655 (-48)];
    Float64 [S754_finite true 6563053515720517 (-47);
             S754_finite true 6076045511015740 (-47)];
    nan_column; nan_column; nan_column; nan_column; nan_column
  ];
  frame_len := 2
|}.

(** The same sheet with text in its first column. *)
Definition numbered_with_text : Frame := {|
  frame_columns := header;
  frame_data := [
    Object [PyStr "a"; PyStr "b"];
    Int64 [7%Z; 12%Z];
    Float64 [S754_finite true 6628876439024304 (-48);
             S754_finite true 6447690996515655 (-48)];
    Float64 [S754_finite true 6563053515720517 (-47);
             S754_finite true 6076045511015740 (-47)];
    nan_column; nan_column; nan_column; nan_column; nan_column
  ];
  frame_len := 2
|}.

(** And with other cells wherever the loop does not read, a tenth
    column among them. *)
Definition numbered_with_more : Frame := {|
  frame_columns := header ++ ["J"];
  frame_data := [
    Object [PyStr "zz"; PyInt 5];
    Int64 [7%Z; 12%Z];
    Float64 [S754_finite true 6628876439024304 (-48);
             S754_finite true 6447690996515655 (-48)];
    Float64 [S754_finite true 6563053515720517 (-47);
             S754_finite true 6076045511015740 (-47)];
    Bool [true; false]; nan_column; Int64 [0%Z; 0%Z];
    Datetime64 [Some "2024-01-01 00:00:00"; None]; nan_column;
    Object [PyStr "j"; blank]
  ];
  frame_len := 2
|}.

Definition numbered_tree : Element :=
  Eval vm_compute in
    match @build Reference.lib Reference.first_free (to_table numbered) with
    | inr tree => tree
    | inl _ => Elem "" [] None []
    end.

Definition numbered_with_text_tree : Element :=
  Eval vm_compute in
    match @build Reference.lib Reference.first_free
            (to_table numbered_with_text) with
    | inr tree => tree
    | inl _ => Elem "" [] None []
    end.

Definition unserialisable_tree : Element :=
  Eval vm_compute in
    match @build Reference.lib Reference.first_free unserialisable with
    | inr tree => tree
    | inl _ => Elem "" [] None []
    end.

(** A folder cell with the text Geral, and a folder cell left empty. *)
Definition geral : DataFrame := {|
  columns := header;
  data := [
    [PyInt 1; PyStr "Pt A"; number true 6628876439024304 (-48);
     number true 6563053515720517 (-47); blank; PyStr "Geral"; blank; blank;
     blank];
    [PyInt 2; PyStr "Pt B"; number true 6447690996515655 (-48);
     number true 6076045511015740 (-47); blank; blank; blank; blank; blank]
  ]
|}.

Definition geral_tree : Element :=
  Eval vm_compute in
    match @build Reference.lib Reference.first_free geral with
    | inr tree => tree
    | inl _ => Elem "" [] None []
    end.

End MoreExamples.

(** * Properties *)

(** ** The dictionary *)

Arguments dict_get : simpl never.

Lemma dict_get_None k (d : list (string * loc)) :
  dict_get k d = None ↔ k ∉ d.*1.
Proof.
  unfold dict_get. induction d as [|[k' v] d IH]; simpl.
  - split; [intros _; apply not_elem_of_nil | done].
  - rewrite not_elem_of_cons. case_bool_decide; simpl in *.
    + split; [done | intros [? _]; congruence].
    + rewrite IH. split; [by intros ?; split | by intros [_ ?]].
Qed.

Lemma dict_get_Some k l (d : list (string * loc)) :
  dict_get k d = Some l → (k, l) ∈ d.
Proof.
  unfold dict_get. induction d as [|[k' v] d IH]; simpl; [done|].
  case_bool_decide; simpl in *.
  - intros [= <-]. subst. apply list_elem_of_here.
  - intros. apply list_elem_of_further. auto.
Qed.

Lemma dict_set_new k v (d : list (string * loc)) :
  k ∉ d.*1 → dict_set k v d = d ++ [(k, v)].
Proof.
  induction d as [|[k' v'] d IH]; simpl; [done|].
  rewrite not_elem_of_cons. intros [Hne Hnin].
  case_decide; [congruence|]. by rewrite IH.
Qed.

Lemma dict_get_snoc k v (d : list (string * loc)) :
  k ∉ d.*1 → dict_get k (d ++ [(k, v)]) = Some v.
Proof.
  unfold dict_get. induction d as [|[k' v'] d IH]; simpl.
  - intros _. by rewrite bool_decide_eq_true_2.
  - rewrite not_elem_of_cons. intros [Hne Hnin].
    rewrite bool_decide_eq_false_2; [|congruence]. auto.
Qed.

(** ** The store stands for the folder lists *)

Section Simulation.
Context {L : PyLib} {Al : Allocator}.

Lemma held_insert σ l e (fs : list (string * loc)) (d : list Folder) :
  σ !! l = None →
  Forall2 (held_by σ) fs d → Forall2 (held_by (<[l:=e]> σ)) fs d.
Proof.
  intros Hl H. eapply Forall2_impl; [exact H|].
  intros [k l'] f [Hk Hs]; split; [done|]. simpl in *.
  rewrite lookup_insert_ne; [done|]. intros ->. congruence.
Qed.

Lemma held_alter σ l g (fs : list (string * loc)) (d : list Folder) :
  l ∉ fs.*2 →
  Forall2 (held_by σ) fs d → Forall2 (held_by (alter g l σ)) fs d.
Proof.
  intros Hl H. induction H as [|[k l'] f fs d [Hk Hs] _ IH]; [constructor|].
  simpl in Hl. apply not_elem_of_cons in Hl as [Hne Hl].
  constructor; [|auto]. split; [done|]. simpl in *.
  by rewrite lookup_alter_ne.
Qed.

Lemma held_names σ (fs : list (string * loc)) (d : list Folder) :
  Forall2 (held_by σ) fs d → fs.*1 = d.*1.
Proof.
  induction 1 as [|[k l] [n rs] fs d [Hk _] _ IH]; [done|].
  rewrite !fmap_cons. simpl in *. by rewrite Hk, IH.
Qed.

Lemma held_lookup σ (fs : list (string * loc)) (d : list Folder) :
  Forall2 (held_by σ) fs d →
  omap (λ l, σ !! l) fs.*2 = folder_element <$> d.
Proof.
  induction 1 as [|[k l] f fs d [_ Hs] _ IH]; [done|].
  rewrite !fmap_cons. cbn in *. by rewrite Hs, IH.
Qed.

Lemma append_folder_element n rs r :
  append (placemark_of r) (folder_element (n, rs))
  = folder_element (n, rs ++ [r]).
Proof. unfold folder_element; simpl. by rewrite fmap_app. Qed.

Lemma add_record_new r (d : list Folder) :
  folderName r ∉ d.*1 → add_record r d = d ++ [(folderName r, [r])].
Proof.
  induction d as [|[n rs] d IH]; simpl; [done|].
  rewrite not_elem_of_cons. intros [Hne Hnin].
  case_decide; [congruence|]. by rewrite IH.
Qed.

Lemma held_add_existing σ (fs : list (string * loc)) (d : list Folder) r l :
  Forall2 (held_by σ) fs d → NoDup fs.*2 →
  dict_get (folderName r) fs = Some l →
  Forall2 (held_by (alter (append (placemark_of r)) l σ)) fs (add_record r d).
Proof.
  intros H. induction H as [|[k l'] [n rs] fs d [Hk Hs] Hrest IH];
    [done|]. simpl in *. subst k.
  rewrite NoDup_cons. intros [Hl' Hnd]. unfold dict_get; simpl.
  case_bool_decide as Hn; simpl.
  - intros [= <-]. rewrite decide_True by done.
    constructor; [|by apply held_alter].
    split; [done|]; simpl.
    by rewrite lookup_alter_eq, Hs, <- append_folder_element.
  - intros Hget. rewrite decide_False by done.
    constructor; [|by apply IH].
    split; [done|]; simpl. rewrite lookup_alter_ne; [done|].
    intros ->. apply Hl'. apply dict_get_Some in Hget.
    by apply (list_elem_of_fmap_2 snd) in Hget.
Qed.

Lemma held_in_store σ (fs : list (string * loc)) (d : list Folder) l :
  Forall2 (held_by σ) fs d → l ∈ fs.*2 → is_Some (σ !! l).
Proof.
  induction 1 as [|[k l'] f fs d [_ Hs] _ IH]; [by intros ?%elem_of_nil|].
  rewrite fmap_cons, elem_of_cons. intros [->|?]; [by eexists | auto].
Qed.

Lemma process_row_sim total_rows ir st a :
  represents st a →
  ∃ st', process_row total_rows ir st = ((spec_row total_rows ir a).1, st')
         ∧ represents st' (spec_row total_rows ir a).2.
Proof.
  destruct ir as [index row], a as [d tr], st as [σ doc fs u].
  intros (Hheld & Hdoc & Hnd & Hui); simpl in *. subst doc tr.
  unfold process_row, spec_row, extract, iloc, row_events.
  unfold mbind, M_bind, mret, M_ret, show, raise; cbn.
  assert (∀ e1 e2 : ui_event, (u ++ [e1]) ++ [e2] = u ++ [e1; e2]) as Hu
    by (intros; by rewrite <- app_assoc).
  destruct (row !! 1) as [c1|]; [|by eexists; rewrite Hu].
  destruct (row !! 2) as [lat|]; [|by eexists; rewrite Hu].
  destruct (row !! 3) as [lon|]; [|by eexists; rewrite Hu].
  destruct (row !! 5) as [c5|]; [|by eexists; rewrite Hu].
  destruct (row !! 8) as [c8|]; [|by eexists; rewrite Hu]. cbn.
  destruct (try_float lat lon) as [e|[la lo]];
    [destruct (caught e); by eexists; rewrite Hu|].
  unfold folders_contains, dict_contains, folders_get, add_placemark; cbn.
  set (r := {| name := _; latitude := la |}).
  change (make_placemark _ _ lo la) with (placemark_of r).
  change (if pd_notna c5 then str c5 else "Geral") with (folderName r).
  clearbody r. rewrite Hu. case_bool_decide as Hknown; cbn.
  - destruct Hknown as [l Hl]. rewrite Hl. eexists; split; [done|].
    split_and!; simpl; [|done..]. by apply held_add_existing.
  - assert (dict_get (folderName r) fs = None) as Hnone
      by (by destruct (dict_get _ fs); [destruct Hknown; eexists|]).
    apply dict_get_None in Hnone.
    rewrite dict_set_new, dict_get_snoc by done. cbn.
    rewrite alter_insert_eq.
    eexists; split; [done|].
    rewrite add_record_new by (by rewrite <- (held_names _ _ _ Hheld)).
    pose proof (alloc_fresh σ) as Hfresh.
    split_and!; simpl; [| | |done].
    + apply Forall2_app; [by apply held_insert|].
      constructor; [|constructor]. split; [done|]; simpl.
      by rewrite lookup_insert_eq.
    + by rewrite fmap_app.
    + rewrite fmap_app. apply NoDup_app. split_and!; [done| |apply NoDup_singleton].
      intros l Hin ->%list_elem_of_singleton.
      destruct (held_in_store _ _ _ _ Hheld Hin) as [? ?]. simpl in *. congruence.
Qed.

Lemma for_each_sim total_rows irows st a :
  represents st a →
  ∃ st', for_each (process_row total_rows) irows st
           = ((spec_loop total_rows irows a).1, st')
         ∧ represents st' (spec_loop total_rows irows a).2.
Proof.
  revert st a. induction irows as [|ir irows IH]; intros st a Hrep; simpl.
  - by exists st.
  - destruct (process_row_sim total_rows ir st a Hrep) as (st1 & Hrun & Hrep1).
    unfold mbind, M_bind. rewrite Hrun.
    destruct (spec_row total_rows ir a) as [[e|[]] a1]; simpl in *.
    + by exists st1.
    + by apply IH.
Qed.

Lemma represents_empty tr : represents (State ∅ [] [] tr) ([], tr).
Proof. split_and!; simpl; try done; constructor. Qed.

Lemma represents_initial : represents initial ([], []).
Proof. apply represents_empty. Qed.

Lemma represents_tree st a : represents st a → kml_tree st = document_tree a.1.
Proof.
  intros (Hheld & Hdoc & _ & _). unfold kml_tree, document_tree; simpl.
  by rewrite Hdoc, (held_lookup _ _ _ Hheld).
Qed.

Lemma spec_loop_ok total_rows irows a :
  (spec_loop total_rows irows a).1 = inr () →
  (spec_loop total_rows irows a).2.1
  = foldl (λ d r, add_record r d) a.1 (records irows).
Proof.
  revert a. induction irows as [|[i row] irows IH]; intros [d tr]; [done|].
  unfold records; simpl. unfold spec_row; simpl.
  destruct (extract i row) as [e|[r|]]; simpl; [done|..]; intros H;
    by rewrite (IH _ H).
Qed.

(** The tree that is built is the one of the grouped records: it does
    not depend on the allocator. *)
Lemma build_rows_spec total_rows irows :
  build_rows total_rows irows
  = match (spec_loop total_rows irows ([], [])).1 with
    | inr _ => inr (document_tree (group (records irows)))
    | inl e => inl e
    end.
Proof.
  unfold build_rows.
  destruct (for_each_sim total_rows irows initial ([], []) represents_initial)
    as (st & -> & Hrep).
  destruct (spec_loop total_rows irows ([], [])) as [[e|[]] a] eqn:E;
    simpl; [done|].
  rewrite (represents_tree _ _ Hrep). simpl.
  pose proof (spec_loop_ok total_rows irows ([], [])) as Hok.
  rewrite E in Hok. simpl in Hok. by rewrite Hok.
Qed.

(** The page does not depend on the allocator either. *)
Lemma main_spec df : main df = spec_main df.
Proof.
  unfold main, spec_main. case_decide; [done|].
  unfold convert, deliver, serialize, get, lift, mbind, M_bind, show.
  cbn -[kml_tree for_each spec_loop].
  destruct (for_each_sim (length (data df)) (iterrows df)
              (State ∅ [] [] [st_progress 0 1; st_empty])
              ([], [st_progress 0 1; st_empty]) (represents_empty _))
    as (st & -> & Hrep).
  destruct (spec_loop _ _ _) as [[e|[]] [d tr]]; cbn [fst snd] in *.
  - by destruct Hrep as (_ & _ & _ & ->).
  - rewrite (represents_tree _ _ Hrep).
    destruct Hrep as (Hheld & _ & _ & Hui). cbn [fst snd] in *.
    destruct (xml_pretty (document_tree d)) as [e|pretty_xml];
      cbn -[String.concat].
    + by rewrite Hui.
    + rewrite Hui, (held_names _ _ _ Hheld).
      rewrite <- (length_fmap fst (folders st)), (held_names _ _ _ Hheld).
      rewrite length_fmap, <- !app_assoc. done.
Qed.

End Simulation.

(** ** Grouping *)

Section Grouping.
Implicit Types (r : PointRecord) (d : list Folder) (recs : list PointRecord).

Lemma fmap_id_on {A} (f : A → A) (l : list A) :
  (∀ x, x ∈ l → f x = x) → f <$> l = l.
Proof.
  intros H. rewrite <- (list_fmap_id l) at 2.
  by apply Forall_fmap_ext, Forall_forall.
Qed.

Lemma filter_all {A} (P : A → Prop) `{!∀ x, Decision (P x)} (l : list A) :
  (∀ x, x ∈ l → P x) → filter P l = l.
Proof.
  induction l as [|x l IH]; intros Hall; [done|].
  rewrite filter_cons_True by apply Hall, list_elem_of_here.
  rewrite IH; [done|]. intros. by apply Hall, list_elem_of_further.
Qed.

Lemma filter_none {A} (P : A → Prop) `{!∀ x, Decision (P x)} (l : list A) :
  Forall (λ x, ¬ P x) l → filter P l = [].
Proof.
  induction 1 as [|x l Hx _ IH]; [done|]. by rewrite filter_cons_False.
Qed.

Lemma filter_fmap_length {A B} (f : A → B) (P : B → Prop)
    `{!∀ y, Decision (P y)} (l : list A) :
  length (filter (λ x, P (f x)) l) = length (filter P (f <$> l)).
Proof.
  induction l as [|x l IH]; [done|]. rewrite fmap_cons.
  destruct (decide (P (f x))).
  - rewrite !filter_cons_True by done. simpl. by rewrite IH.
  - by rewrite !filter_cons_False by done.
Qed.

Lemma add_record_known r d :
  NoDup d.*1 → folderName r ∈ d.*1 →
  add_record r d
  = (λ f, if decide (f.1 = folderName r) then (f.1, f.2 ++ [r]) else f) <$> d.
Proof.
  induction d as [|[n rs] d IH]; [by intros _ ?%elem_of_nil|].
  rewrite !fmap_cons, NoDup_cons, elem_of_cons; simpl.
  intros [Hn Hnd] Hin. case_decide as E.
  - f_equal. subst n. symmetry. apply fmap_id_on.
    intros f Hf. case_decide as E'; [|done]. destruct Hn.
    rewrite <- E'. by apply (list_elem_of_fmap_2 fst).
  - f_equal. apply IH; [done|]. destruct Hin; [congruence|done].
Qed.

Lemma add_record_names r d :
  (add_record r d).*1
  = if decide (folderName r ∈ d.*1) then d.*1 else d.*1 ++ [folderName r].
Proof.
  induction d as [|[n rs] d IH].
  - by case_decide as E; [apply elem_of_nil in E|].
  - cbn [add_record]. rewrite !fmap_cons. cbn [fst].
    destruct (decide (n = folderName r)) as [E|E].
    + rewrite decide_True; [done|]. subst. apply list_elem_of_here.
    + rewrite fmap_cons, IH. cbn [fst]. case_decide as E'.
      * rewrite decide_True; [done|]. by apply list_elem_of_further.
      * rewrite decide_False; [done|].
        rewrite not_elem_of_cons. split; [congruence|done].
Qed.

Lemma add_record_NoDup r d : NoDup d.*1 → NoDup (add_record r d).*1.
Proof.
  intros Hnd. rewrite add_record_names. case_decide as E; [done|].
  apply NoDup_app. split_and!; [done| |apply NoDup_singleton].
  intros n Hn ->%list_elem_of_singleton. done.
Qed.

Lemma foldl_add_record recs d :
  NoDup d.*1 →
  foldl (λ d r, add_record r d) d recs
  = ((λ f, (f.1, f.2 ++ in_folder f.1 recs)) <$> d)
    ++ ((λ n, (n, in_folder n recs))
          <$> filter (λ n, n ∉ d.*1) (first_seen (folderName <$> recs))).
Proof.
  unfold in_folder.
  revert d. induction recs as [|r recs IH]; intros d Hnd; simpl.
  - rewrite app_nil_r. symmetry. apply fmap_id_on.
    intros [n rs] _; simpl. by rewrite app_nil_r.
  - rewrite IH by by apply add_record_NoDup.
    rewrite add_record_names.
    destruct (decide (folderName r ∈ d.*1)) as [Hin|Hnin].
    + rewrite filter_cons_False by (by intros []).
      rewrite list_filter_filter. f_equal.
      * rewrite add_record_known by done. rewrite <- list_fmap_compose.
        apply Forall_fmap_ext, Forall_forall. intros [n rs] _; simpl.
        case_decide as E; simpl.
        -- rewrite filter_cons_True by done. by rewrite <- app_assoc.
        -- by rewrite filter_cons_False by done.
      * rewrite (list_filter_iff (λ n, n ∉ d.*1) (λ n, (n ∉ d.*1) ∧ n ≠ folderName r));
          [|intros n; split; [intros ?; split; [done|congruence] | by intros []]].
        apply Forall_fmap_ext, Forall_forall.
        intros n [[_ Hne] _]%list_elem_of_filter.
        by rewrite filter_cons_False by done.
    + rewrite add_record_new by done.
      rewrite fmap_app, <- app_assoc. f_equal.
      * apply Forall_fmap_ext, Forall_forall. intros [n rs] Hf; simpl.
        rewrite filter_cons_False; [done|]. intros E. apply Hnin.
        rewrite E. by apply (list_elem_of_fmap_2 fst) in Hf.
      * rewrite filter_cons_True by done. simpl.
        rewrite filter_cons_True by done. f_equal.
        rewrite list_filter_filter.
        rewrite (list_filter_iff (λ n, n ∉ d.*1 ++ [folderName r])
                                 (λ n, (n ∉ d.*1) ∧ n ≠ folderName r)).
        2:{ intros n. rewrite elem_of_app, list_elem_of_singleton. tauto. }
        apply Forall_fmap_ext, Forall_forall.
        intros n [[_ Hne] _]%list_elem_of_filter.
        by rewrite filter_cons_False by done.
Qed.

Lemma group_grouped recs : group recs = grouped recs.
Proof.
  unfold group, grouped. rewrite foldl_add_record by constructor. simpl.
  f_equal. apply filter_all. intros n _. apply not_elem_of_nil.
Qed.

Lemma first_seen_elem_of (x : string) l : x ∈ first_seen l ↔ x ∈ l.
Proof.
  induction l as [|y l IH]; simpl; [done|].
  rewrite !elem_of_cons, list_elem_of_filter, IH.
  destruct (decide (x = y)); tauto.
Qed.

Lemma first_seen_NoDup l : NoDup (first_seen l).
Proof.
  induction l as [|y l IH]; simpl; constructor.
  - by intros [? _]%list_elem_of_filter.
  - by apply NoDup_filter.
Qed.

End Grouping.

(** ** Reading the tree of a list of folders *)

Section Reading.
Context {L : PyLib}.

Lemma placemark_of_eq r :
  placemark_of r
  = Elem "Placemark" [] None
      (Elem "name" [] (Some (name r)) []
       :: (if bool_decide (description r ≠ "")
           then [Elem "description" [] (Some (description r)) []] else [])
       ++ [Elem "Point" [] None
             [Elem "coordinates" []
                (Some (str_of_float (longitude r) +:+ ","
                         +:+ str_of_float (latitude r) +:+ ",0")) []]]).
Proof. unfold placemark_of, make_placemark. by case_bool_decide. Qed.

Lemma tag_placemark_of r : tag (placemark_of r) = "Placemark".
Proof. by rewrite placemark_of_eq. Qed.

Lemma coordinates_placemark_of r :
  coordinates_text (placemark_of r)
  = Some (str_of_float (longitude r) +:+ "," +:+ str_of_float (latitude r)
            +:+ ",0").
Proof. rewrite placemark_of_eq. by case_bool_decide. Qed.

Lemma name_placemark_of r : findtext "name" (placemark_of r) = Some (name r).
Proof. by rewrite placemark_of_eq. Qed.

Lemma description_placemark_of r :
  findtext "description" (placemark_of r)
  = if bool_decide (description r ≠ "") then Some (description r) else None.
Proof. rewrite placemark_of_eq. by case_bool_decide. Qed.

Lemma findall_placemarks (rs : list PointRecord) :
  filter (λ c, tag c = "Placemark") (placemark_of <$> rs) = placemark_of <$> rs.
Proof.
  apply filter_all. intros c (r & -> & _)%list_elem_of_fmap.
  apply tag_placemark_of.
Qed.

Lemma findall_folder_element (f : Folder) :
  findall "Placemark" (folder_element f) = placemark_of <$> f.2.
Proof.
  unfold findall, folder_element; simpl.
  rewrite filter_cons_False by done. apply findall_placemarks.
Qed.

Lemma name_folder_element (f : Folder) :
  findtext "name" (folder_element f) = Some f.1.
Proof. done. Qed.

Lemma folder_elements_tree (d : list Folder) :
  folder_elements (document_tree d) = folder_element <$> d.
Proof.
  unfold folder_elements, document_tree, findall; simpl.
  rewrite app_nil_r.
  by apply filter_all; intros c (f & -> & _)%list_elem_of_fmap.
Qed.

Lemma folder_names_tree (d : list Folder) :
  folder_names (document_tree d) = Some <$> d.*1.
Proof.
  unfold folder_names. rewrite folder_elements_tree, <- !list_fmap_compose.
  by apply list_fmap_ext.
Qed.

Lemma placemarks_tree (d : list Folder) :
  placemarks (document_tree d) = d ≫= λ f, placemark_of <$> f.2.
Proof.
  unfold placemarks. rewrite folder_elements_tree.
  induction d as [|f d IH]; [done|].
  rewrite fmap_cons, !bind_cons, IH. by rewrite findall_folder_element.
Qed.

Lemma placemarks_in_tree n (d : list Folder) :
  placemarks_in n (document_tree d)
  = filter (λ f, f.1 = n) d ≫= λ f, placemark_of <$> f.2.
Proof.
  unfold placemarks_in. rewrite folder_elements_tree.
  induction d as [|f d IH]; [done|].
  rewrite fmap_cons. destruct (decide (f.1 = n)) as [E|E].
  - rewrite !filter_cons_True by (by rewrite ?name_folder_element, ?E).
    by rewrite !bind_cons, IH, findall_folder_element.
  - rewrite !filter_cons_False; [done|done|].
    rewrite name_folder_element. congruence.
Qed.

End Reading.

(** ** Rows, records and the tree that is built *)

Section Rows.
Context {L : PyLib}.

Lemma spec_loop_inr total_rows irows a :
  (spec_loop total_rows irows a).1 = inr ()
  ↔ Forall (λ ir, ∃ o, extract ir.1 ir.2 = inr o) irows.
Proof.
  revert a. induction irows as [|[i row] irows IH]; intros a; simpl.
  - split; [constructor|done].
  - rewrite Forall_cons. unfold spec_row; simpl.
    destruct (extract i row) as [e|[r|]]; simpl.
    + split; [done|]. by intros [[? ?] _].
    + rewrite IH. split; [by split; [eexists|] | by intros []].
    + rewrite IH. split; [by split; [eexists|] | by intros []].
Qed.

Lemma extract_Some_float_accepts i row r :
  extract i row = inr (Some r) → float_accepts row = true.
Proof.
  unfold extract, float_accepts, float_returns, try_float.
  destruct (row !! 1), (row !! 2) as [lat|], (row !! 3) as [lon|],
    (row !! 5), (row !! 8); try done.
  destruct (float lat) as [e|]; [by destruct (caught e)|].
  destruct (float lon) as [e|]; [by destruct (caught e)|done].
Qed.

Lemma extract_None_float_accepts i row :
  extract i row = inr None → float_accepts row = false.
Proof.
  unfold extract, float_accepts, float_returns, try_float.
  destruct (row !! 1), (row !! 2) as [lat|], (row !! 3) as [lon|],
    (row !! 5), (row !! 8); try done.
  destruct (float lat) as [e|]; [done|].
  by destruct (float lon) as [e|].
Qed.

Lemma records_cons ir irows :
  records (ir :: irows)
  = match extract ir.1 ir.2 with
    | inr (Some r) => r :: records irows
    | _ => records irows
    end.
Proof. unfold records; simpl. by destruct (extract _ _) as [|[|]]. Qed.

Lemma records_length irows :
  Forall (λ ir, ∃ o, extract ir.1 ir.2 = inr o) irows →
  length (records irows) = length (filter (λ ir, float_accepts ir.2) irows).
Proof.
  induction 1 as [|[i row] irows [o Ho] _ IH]; [done|].
  rewrite records_cons; simpl in *. rewrite Ho. destruct o as [r|].
  - rewrite filter_cons_True
      by (simpl; by rewrite (extract_Some_float_accepts _ _ _ Ho)).
    simpl. by rewrite IH.
  - rewrite filter_cons_False; [done|]. simpl.
    rewrite (extract_None_float_accepts _ _ Ho). simpl. tauto.
Qed.

Lemma records_float_accepts irows :
  Forall (λ ir, ∃ o, extract ir.1 ir.2 = inr o) irows →
  records (filter (λ ir, float_accepts ir.2) irows) = records irows
  ∧ Forall (λ ir, ∃ o, extract ir.1 ir.2 = inr o)
           (filter (λ ir, float_accepts ir.2) irows).
Proof.
  induction 1 as [|[i row] irows [o Ho] _ [IH1 IH2]]; [done|].
  rewrite (records_cons (i, row)); simpl in *. rewrite Ho.
  destruct o as [r|].
  - rewrite filter_cons_True
      by (simpl; by rewrite (extract_Some_float_accepts _ _ _ Ho)).
    rewrite records_cons; simpl. rewrite Ho, IH1. split; [done|].
    constructor; [by eexists|done].
  - rewrite filter_cons_False; [done|]. simpl.
    rewrite (extract_None_float_accepts _ _ Ho). simpl. tauto.
Qed.

Lemma elem_of_records r irows :
  r ∈ records irows ↔ ∃ ir, ir ∈ irows ∧ extract ir.1 ir.2 = inr (Some r).
Proof.
  unfold records. rewrite list_elem_of_omap. split.
  - intros (ir & Hin & Hex). exists ir. split; [done|].
    destruct (extract _ _) as [|[|]]; congruence.
  - intros (ir & Hin & Hex). exists ir. by rewrite Hex.
Qed.

Lemma elem_of_iterrows df i row :
  (i, row) ∈ iterrows df ↔ data df !! i = Some row.
Proof.
  unfold iterrows. rewrite list_elem_of_lookup. split.
  - intros (j & [Hi Hrow]%lookup_zip_Some).
    by apply lookup_seq in Hi as [-> _].
  - intros Hrow. exists i. apply lookup_zip_Some. split; [|done].
    apply lookup_seq. split; [done|]. by eapply lookup_lt_Some.
Qed.

Lemma iterrows_rows df : (iterrows df).*2 = data df.
Proof. unfold iterrows. apply snd_zip. by rewrite length_seq. Qed.

Lemma float_accepts_count df :
  length (filter (λ ir, float_accepts ir.2) (iterrows df))
  = length (filter (λ row, float_accepts row) (data df)).
Proof.
  rewrite <- (iterrows_rows df).
  exact (filter_fmap_length snd (λ row : Row, Is_true (float_accepts row))
                            (iterrows df)).
Qed.

Lemma add_record_count r (d : list Folder) :
  length (add_record r d ≫= snd) = S (length (d ≫= snd)).
Proof.
  induction d as [|[n rs] d IH]; [done|]. cbn [add_record]. case_decide.
  - rewrite !bind_cons. cbn [snd]. rewrite !length_app. simpl. lia.
  - rewrite !bind_cons. cbn [snd]. rewrite !length_app, IH. lia.
Qed.

Lemma group_count recs : length (group recs ≫= snd) = length recs.
Proof.
  unfold group.
  assert (∀ d, length (foldl (λ d r, add_record r d) d recs ≫= snd)
               = length (d ≫= snd) + length recs) as H.
  { induction recs as [|r recs IH]; intros d; simpl; [lia|].
    rewrite IH, add_record_count. lia. }
  by rewrite H.
Qed.

Lemma placemarks_count (d : list Folder) :
  length (placemarks (document_tree d)) = length (d ≫= snd).
Proof.
  rewrite placemarks_tree. induction d as [|f d IH]; [done|].
  by rewrite !bind_cons, !length_app, length_fmap, IH.
Qed.

Lemma placemarks_in_grouped n recs :
  placemarks_in n (document_tree (grouped recs))
  = placemark_of <$> in_folder n recs.
Proof.
  rewrite placemarks_in_tree. unfold grouped.
  destruct (decide (n ∈ first_seen (folderName <$> recs))) as [Hin|Hnin].
  - pose proof (first_seen_NoDup (folderName <$> recs)) as Hnd.
    induction Hnd as [|x l Hx Hnd IH]; [by apply elem_of_nil in Hin|].
    rewrite fmap_cons. destruct (decide (x = n)) as [->|Hne].
    + rewrite filter_cons_True by done. rewrite bind_cons. simpl.
      rewrite (filter_none (λ f : Folder, f.1 = n)); [by rewrite app_nil_r|].
      apply Forall_fmap, Forall_forall. intros y Hy; simpl. by intros ->.
    + rewrite filter_cons_False by done. apply IH.
      apply elem_of_cons in Hin as [?|?]; [congruence|done].
  - rewrite (filter_none (λ f : Folder, f.1 = n)).
    2:{ apply Forall_fmap, Forall_forall. intros y Hy; simpl. by intros ->. }
    symmetry. simpl. unfold in_folder.
    rewrite (filter_none (λ r, folderName r = n)); [done|].
    apply Forall_forall. intros r Hr E. apply Hnin, first_seen_elem_of.
    rewrite <- E. by apply list_elem_of_fmap_2.
Qed.

Section WithAllocator.
Context {Al : Allocator}.

Lemma build_rows_inr total_rows irows tree :
  build_rows total_rows irows = inr tree →
  Forall (λ ir, ∃ o, extract ir.1 ir.2 = inr o) irows
  ∧ tree = document_tree (group (records irows)).
Proof.
  rewrite build_rows_spec.
  destruct (spec_loop total_rows irows ([], [])) as [[e|[]] a] eqn:E;
    simpl; [done|]. intros [= <-]. split; [|done].
  apply (spec_loop_inr total_rows irows ([], [])). by rewrite E.
Qed.

Lemma build_rows_ok total_rows irows :
  Forall (λ ir, ∃ o, extract ir.1 ir.2 = inr o) irows →
  build_rows total_rows irows = inr (document_tree (group (records irows))).
Proof.
  intros H%(spec_loop_inr total_rows irows ([], [])).
  rewrite build_rows_spec. by rewrite H.
Qed.

End WithAllocator.
End Rows.

(** ** What a record holds, and where its placemark ends up *)

Section Records.
Context {L : PyLib}.

Lemma extract_Some_inv i row r :
  extract i row = inr (Some r) →
  ∃ c1 clat clon c5 c8,
    row !! 1 = Some c1 ∧ row !! 2 = Some clat ∧ row !! 3 = Some clon
    ∧ row !! 5 = Some c5 ∧ row !! 8 = Some c8
    ∧ float clat = inr (latitude r) ∧ float clon = inr (longitude r)
    ∧ name r = (if pd_notna c1 then str c1 else "Ponto_" +:+ pretty (i + 1))
    ∧ folderName r = (if pd_notna c5 then str c5 else "Geral")
    ∧ description r = (if pd_notna c8 then str c8 else "").
Proof.
  unfold extract, try_float.
  destruct (row !! 1) as [c1|], (row !! 2) as [clat|], (row !! 3) as [clon|],
    (row !! 5) as [c5|], (row !! 8) as [c8|]; try done.
  destruct (float clat) as [e|lat] eqn:Hlat; [by destruct (caught e)|].
  destruct (float clon) as [e|lon] eqn:Hlon; [by destruct (caught e)|].
  intros [= <-]. exists c1, clat, clon, c5, c8. by split_and!.
Qed.

Lemma extract_accepted i row o clat clon lat lon :
  extract i row = inr o →
  row !! 2 = Some clat → row !! 3 = Some clon →
  float clat = inr lat → float clon = inr lon →
  ∃ r, o = Some r ∧ latitude r = lat ∧ longitude r = lon.
Proof.
  unfold extract, try_float. intros Hex H2 H3 Hlat Hlon. revert Hex.
  rewrite H2, H3, Hlat, Hlon.
  destruct (row !! 1), (row !! 5), (row !! 8); try done.
  intros [= <-]. by eexists.
Qed.

Lemma elem_of_grouped r recs : r ∈ grouped recs ≫= snd ↔ r ∈ recs.
Proof.
  unfold grouped. rewrite list_elem_of_bind. split.
  - intros ([n rs] & Hr & (n' & [= -> ->] & _)%list_elem_of_fmap).
    simpl in Hr. unfold in_folder in Hr.
    by apply list_elem_of_filter in Hr as [_ ?].
  - intros Hr. exists (folderName r, in_folder (folderName r) recs).
    split; [by apply list_elem_of_filter|].
    apply (list_elem_of_fmap_2 (λ n, (n, in_folder n recs))).
    apply first_seen_elem_of. by apply list_elem_of_fmap_2.
Qed.

Lemma elem_of_placemarks p (d : list Folder) :
  p ∈ placemarks (document_tree d) ↔ ∃ r, r ∈ d ≫= snd ∧ p = placemark_of r.
Proof.
  rewrite placemarks_tree, list_elem_of_bind. split.
  - intros (f & (r & -> & Hr)%list_elem_of_fmap & Hf).
    exists r. split; [|done]. apply list_elem_of_bind. by exists f.
  - intros (r & (f & Hr & Hf)%list_elem_of_bind & ->).
    exists f. split; [by apply list_elem_of_fmap_2|done].
Qed.

Section WithAllocator.
Context {Al : Allocator}.

Lemma build_inr df tree :
  build df = inr tree →
  Forall (λ ir, ∃ o, extract ir.1 ir.2 = inr o) (iterrows df)
  ∧ tree = document_tree (grouped (records (iterrows df))).
Proof.
  intros [Hok ->]%build_rows_inr. by rewrite group_grouped.
Qed.

(** The placemark of a row that passes is in the folder of its record. *)
Lemma row_placemark df tree i row r :
  build df = inr tree → data df !! i = Some row →
  extract i row = inr (Some r) →
  placemark_of r ∈ placemarks_in (folderName r) tree.
Proof.
  intros [_ ->]%build_inr Hrow Hex. rewrite placemarks_in_grouped.
  apply list_elem_of_fmap_2, list_elem_of_filter. split; [done|].
  apply elem_of_records. exists (i, row). split; [|done].
  by apply elem_of_iterrows.
Qed.

(** Every placemark of the tree is the one of a row that passes. *)
Lemma placemark_row df tree p :
  build df = inr tree → p ∈ placemarks tree →
  ∃ i row r, data df !! i = Some row ∧ extract i row = inr (Some r)
             ∧ p = placemark_of r.
Proof.
  intros [_ ->]%build_inr (r & Hr & ->)%elem_of_placemarks.
  apply elem_of_grouped, elem_of_records in Hr as ([i row] & Hin & Hex).
  exists i, row, r. by apply elem_of_iterrows in Hin.
Qed.

Lemma build_row_extracts df tree i row :
  build df = inr tree → data df !! i = Some row →
  ∃ o, extract i row = inr o.
Proof.
  intros [Hok _]%build_inr Hrow%elem_of_iterrows.
  by apply (proj1 (Forall_forall _ _) Hok (i, row)).
Qed.

End WithAllocator.
End Records.

(** ** One row, from a state the loop can be in *)

Section Steps.
Context {L : PyLib} {Al : Allocator}.





Lemma process_row_same_cells total_rows i row row' :
  same_used_cells row row' →
  process_row total_rows (i, row) = process_row total_rows (i, row').
Proof.
  intros H. unfold same_used_cells in H. rewrite Forall_forall in H.
  unfold process_row, iloc.
  by rewrite (H 1), (H 2), (H 3), (H 5), (H 8) by set_solver.
Qed.

Lemma for_each_same_cells total_rows (rows rows' : list Row) k :
  Forall2 same_used_cells rows rows' →
  for_each (process_row total_rows) (zip (seq k (length rows)) rows)
  = for_each (process_row total_rows) (zip (seq k (length rows')) rows').
Proof.
  intros H. revert k. induction H as [|row row' rows rows' Hrow _ IH];
    intros k; [done|].
  cbn [length seq zip_with for_each].
  by rewrite (process_row_same_cells _ _ _ _ Hrow), (IH (S k)).
Qed.

Lemma spec_loop_events total_rows irows d tr :
  ∃ evs, (spec_loop total_rows irows (d, tr)).2.2 = tr ++ evs
         ∧ Forall is_row_event evs.
Proof.
  revert d tr. induction irows as [|[i row] irows IH]; intros d tr; simpl.
  - exists []. by rewrite app_nil_r.
  - unfold spec_row; simpl.
    assert (Forall is_row_event (row_events total_rows i)) as Hev
      by (by repeat constructor).
    destruct (extract i row) as [e|[r|]]; simpl.
    + by eexists.
    + destruct (IH (add_record r d) (tr ++ row_events total_rows i))
        as (evs & -> & Hevs).
      eexists. rewrite <- app_assoc. split; [done|]. by apply Forall_app.
    + destruct (IH d (tr ++ row_events total_rows i)) as (evs & -> & Hevs).
      eexists. rewrite <- app_assoc. split; [done|]. by apply Forall_app.
Qed.

Lemma spec_loop_folders total_rows irows d tr tr' :
  (spec_loop total_rows irows (d, tr)).1
  = (spec_loop total_rows irows (d, tr')).1
  ∧ (spec_loop total_rows irows (d, tr)).2.1
    = (spec_loop total_rows irows (d, tr')).2.1.
Proof.
  revert d tr tr'. induction irows as [|[i row] irows IH]; intros d tr tr';
    [done|].
  simpl. unfold spec_row; simpl.
  destruct (extract i row) as [e|[r|]]; simpl; [done|..]; apply IH.
Qed.

Lemma elem_of_download xml evs rest :
  Forall is_row_event evs →
  st_download_button xml ∈ ([st_progress 0 1; st_empty] ++ evs) ++ rest
  ↔ st_download_button xml ∈ rest.
Proof.
  intros H. rewrite !elem_of_app, !elem_of_cons. split; [|tauto].
  intros [[[?|[?|?%elem_of_nil]]|Hin]|?]; try done.
  by apply (proj1 (Forall_forall _ _) H) in Hin.
Qed.

(** What is offered for download is the text of the document built. *)
Lemma main_download df xml :
  st_download_button xml ∈ main df
  ↔ 9 ≤ length (columns df)
    ∧ ∃ tree, build df = inr tree ∧ xml_pretty tree = inr xml.
Proof.
  rewrite main_spec. unfold spec_main, build.
  rewrite build_rows_spec.
  case_decide as Hcols.
  { rewrite list_elem_of_singleton. split; [done|]. intros [? _]. lia. }
  pose proof (spec_loop_folders (length (data df)) (iterrows df) []
                [st_progress 0 1; st_empty] []) as [E1 E2].
  pose proof (spec_loop_ok (length (data df)) (iterrows df) ([], [])) as Hok.
  destruct (spec_loop_events (length (data df)) (iterrows df) []
              [st_progress 0 1; st_empty]) as (evs & Hevs & Hrow).
  destruct (spec_loop _ _ ([], [st_progress 0 1; st_empty]))
    as [[e|[]] [d tr]];
    destruct (spec_loop _ _ ([], [])) as [[e'|[]] [d' tr']];
    cbn [fst snd] in *; subst tr; try done.
  - rewrite elem_of_download, list_elem_of_singleton by done.
    split; [done|]. by intros [_ (tree & ? & _)].
  - subst d'. rewrite Hok by done. fold (group (records (iterrows df))).
    destruct (xml_pretty (document_tree (group (records (iterrows df)))))
      as [e|pretty_xml] eqn:Hxml.
    + rewrite elem_of_download, list_elem_of_singleton by done.
      split; [done|]. intros [_ (tree & [= <-] & ?)]. congruence.
    + rewrite elem_of_download, !elem_of_cons by done. split.
      * intros [?|[?|[?|[[= ->]|[?|?%elem_of_nil]]]]]; try done.
        split; [lia|]. by eexists.
      * intros [_ (tree & [= <-] & Hx)]. rewrite Hxml in Hx.
        injection Hx as ->. tauto.
Qed.

End Steps.

(** * The claims *)

Section Claims.
Context {L : PyLib} {Al : Allocator}.

(** C1, as amended.  In the document built from a table whose latitude
    and longitude cells are all filled in, the Placemark elements of all
    folders together are as many as the rows for both of whose
    coordinate cells the built-in [float] returns a value, finite or
    not.  The other rows leave nothing behind: the loop run on the
    counted rows alone, at their row numbers, builds the same
    document. *)
Theorem placemark_count_is_rows_float_accepts df tree :
  Forall (λ row, coordinates_present row = true) (data df) →
  build df = inr tree →
  length (placemarks tree)
  = length (filter (λ row, float_accepts row) (data df))
  ∧ build_rows (length (data df))
               (filter (λ ir, float_accepts ir.2) (iterrows df)) = inr tree.
Proof.
  intros _ [Hok ->]%build_rows_inr. split.
  - by rewrite placemarks_count, group_count, records_length,
      float_accepts_count.
  - destruct (records_float_accepts _ Hok) as [Hrecs Hok'].
    by rewrite (build_rows_ok _ _ Hok'), Hrecs.
Qed.

(** C2.  Folder names in the document are pairwise distinct and stand in
    the order in which the names first appear among the records; the
    folder of a name holds the placemarks of exactly the records with
    that very string as folder name, in row order. *)
Theorem folders_unique_in_first_seen_order df tree :
  build df = inr tree →
  folder_names tree
  = Some <$> first_seen (folderName <$> records (iterrows df))
  ∧ NoDup (folder_names tree)
  ∧ ∀ n, placemarks_in n tree
         = placemark_of <$> in_folder n (records (iterrows df)).
Proof.
  intros [_ ->]%build_inr.
  assert (folder_names (document_tree (grouped (records (iterrows df))))
          = Some <$> first_seen (folderName <$> records (iterrows df))) as E.
  { rewrite folder_names_tree. f_equal. unfold grouped.
    rewrite <- list_fmap_compose. by apply fmap_id_on. }
  split_and!; [done| |intros n; apply placemarks_in_grouped].
  rewrite E. apply (NoDup_fmap_2 _), first_seen_NoDup.
Qed.


(** C4.  The coordinates text of a Placemark is the longitude, a comma,
    the latitude, and [,0]: every row that passes has such a placemark
    for its two converted cells, and every placemark of the document is
    that of some row. *)
Theorem coordinates_text_is_lon_lat_0 df tree :
  build df = inr tree →
  (∀ i row clat clon lat lon,
     data df !! i = Some row →
     row !! 2 = Some clat → row !! 3 = Some clon →
     float clat = inr lat → float clon = inr lon →
     ∃ p, p ∈ placemarks tree
          ∧ coordinates_text p
            = Some (str_of_float lon +:+ "," +:+ str_of_float lat +:+ ",0"))
  ∧ (∀ p, p ∈ placemarks tree →
     ∃ i row clat clon lat lon,
       data df !! i = Some row
       ∧ row !! 2 = Some clat ∧ row !! 3 = Some clon
       ∧ float clat = inr lat ∧ float clon = inr lon
       ∧ coordinates_text p
         = Some (str_of_float lon +:+ "," +:+ str_of_float lat +:+ ",0")).
Proof.
  intros Hb. split.
  - intros i row clat clon lat lon Hrow H2 H3 Hlat Hlon.
    destruct (build_row_extracts _ _ _ _ Hb Hrow) as [o Ho].
    destruct (extract_accepted _ _ _ _ _ _ _ Ho H2 H3 Hlat Hlon)
      as (r & -> & <- & <-).
    exists (placemark_of r). split; [|apply coordinates_placemark_of].
    destruct (build_inr _ _ Hb) as [_ ->].
    apply elem_of_placemarks. exists r. split; [|done].
    apply elem_of_grouped, elem_of_records. exists (i, row).
    split; [by apply elem_of_iterrows|done].
  - intros p Hp.
    destruct (placemark_row _ _ _ Hb Hp) as (i & row & r & Hrow & Hex & ->).
    destruct (extract_Some_inv _ _ _ Hex)
      as (c1 & clat & clon & c5 & c8 & _ & H2 & H3 & _ & _ & Hlat & Hlon & _).
    exists i, row, clat, clon, (latitude r), (longitude r).
    split_and!; try done. apply coordinates_placemark_of.
Qed.

(** C5, as amended.  When the name cell of a row that passes is missing
    (None or NaN, the form in which an empty cell of the sheet arrives),
    its placemark is named [Ponto_] followed by the 1-based row number;
    a cell holding the empty string is not missing and names the
    placemark with the empty string. *)
Theorem missing_name_is_Ponto_row_number df tree i row c1 r :
  build df = inr tree → data df !! i = Some row →
  row !! 1 = Some c1 → extract i row = inr (Some r) →
  placemark_of r ∈ placemarks_in (folderName r) tree
  ∧ findtext "name" (placemark_of r) = Some (name r)
  ∧ (pd_notna c1 = false → name r = "Ponto_" +:+ pretty (i + 1))
  ∧ (c1 = PyStr "" → name r = "").
Proof.
  intros Hb Hrow H1 Hex.
  destruct (extract_Some_inv _ _ _ Hex)
    as (c1' & _ & _ & _ & _ & H1' & _ & _ & _ & _ & _ & _ & Hname & _).
  assert (c1' = c1) as -> by congruence.
  split_and!.
  - by eapply row_placemark.
  - apply name_placemark_of.
  - intros Hna. by rewrite Hname, Hna.
  - intros ->. by rewrite Hname.
Qed.

(** C6, as amended.  When the folder cell of a row that passes is
    missing (None or NaN), its placemark goes to the folder named
    [Geral]; a cell holding the empty string is not missing and names
    a folder with the empty string. *)
Theorem missing_folder_is_Geral df tree i row c5 r :
  build df = inr tree → data df !! i = Some row →
  row !! 5 = Some c5 → extract i row = inr (Some r) →
  placemark_of r ∈ placemarks_in (folderName r) tree
  ∧ (pd_notna c5 = false → folderName r = "Geral")
  ∧ (c5 = PyStr "" → folderName r = "").
Proof.
  intros Hb Hrow H5 Hex.
  destruct (extract_Some_inv _ _ _ Hex)
    as (_ & _ & _ & c5' & _ & _ & _ & _ & H5' & _ & _ & _ & _ & Hfolder & _).
  assert (c5' = c5) as -> by congruence.
  split_and!.
  - by eapply row_placemark.
  - intros Hna. by rewrite Hfolder, Hna.
  - intros ->. by rewrite Hfolder.
Qed.

(** C7.  With fewer than nine columns the page shows the one report of
    insufficient columns and nothing else: no row is shown as processed
    and nothing is offered for download. *)
Theorem too_few_columns_only_reports df :
  length (columns df) < 9 →
  main df = [st_error InsufficientColumns]
  ∧ (∀ xml, st_download_button xml ∉ main df)
  ∧ Forall (λ ev, ¬ is_row_event ev) (main df).
Proof.
  intros H.
  assert (main df = [st_error InsufficientColumns]) as ->
    by (unfold main; by rewrite decide_True).
  split_and!; [done| |].
  - by intros xml ?%list_elem_of_singleton.
  - constructor; [simpl; tauto|constructor].
Qed.

(** C8.  The placemark of a row that passes has a [description] child
    exactly when the description of its record is not the empty string,
    and the child then carries that text; a description cell that is
    missing or holds the empty string gives no such child. *)
Theorem description_child_iff_nonempty df tree i row c8 r :
  build df = inr tree → data df !! i = Some row →
  row !! 8 = Some c8 → extract i row = inr (Some r) →
  placemark_of r ∈ placemarks_in (folderName r) tree
  ∧ (is_Some (find_child "description" (placemark_of r))
     ↔ description r ≠ "")
  ∧ (description r ≠ "" →
     findtext "description" (placemark_of r) = Some (description r))
  ∧ (pd_notna c8 = false ∨ c8 = PyStr "" →
     find_child "description" (placemark_of r) = None).
Proof.
  intros Hb Hrow H8 Hex.
  destruct (extract_Some_inv _ _ _ Hex)
    as (_ & _ & _ & _ & c8' & _ & _ & _ & _ & H8' & _ & _ & _ & _ & Hdesc).
  assert (c8' = c8) as -> by congruence.
  assert (find_child "description" (placemark_of r)
          = if bool_decide (description r ≠ "")
            then Some (Elem "description" [] (Some (description r)) [])
            else None) as Hfind.
  { rewrite placemark_of_eq. by case_bool_decide. }
  split_and!.
  - by eapply row_placemark.
  - rewrite Hfind. case_bool_decide as E.
    + split; [done|by eexists].
    + split; [by intros [? ?]|done].
  - intros Hne. rewrite description_placemark_of.
    by rewrite bool_decide_eq_true_2.
  - intros Hc. rewrite Hfind, bool_decide_eq_false_2; [done|].
    intros Hne. apply Hne. rewrite Hdesc.
    destruct Hc as [-> | ->]; done.
Qed.

(** Tables whose rows hold the same cells where the loop reads give
    the same run. *)
Lemma same_used_cells_same_run df df' :
  9 ≤ length (columns df) → 9 ≤ length (columns df') →
  Forall2 same_used_cells (data df) (data df') →
  main df = main df' ∧ build df = build df'.
Proof.
  intros Hc Hc' Hrows.
  pose proof (Forall2_length _ _ _ Hrows) as Hlen.
  pose proof (for_each_same_cells (length (data df)) _ _ 0 Hrows) as Hloop.
  rewrite <- Hlen in Hloop. split.
  - unfold main. rewrite !decide_False by lia.
    unfold convert, deliver, iterrows. by rewrite <- Hlen, Hloop.
  - unfold build, build_rows, iterrows. by rewrite <- Hlen, Hloop.
Qed.

Lemma values_same_used_cells f f' :
  frame_len f = frame_len f' →
  find_common_type (column_dtype <$> frame_data f)
  = find_common_type (column_dtype <$> frame_data f') →
  same_used_columns f f' →
  Forall2 same_used_cells (values f) (values f').
Proof.
  intros Hlen Ht Hcols. unfold values. rewrite <- Hlen, <- Ht.
  apply Forall2_fmap, Forall_Forall2_diag, Forall_forall. intros i _.
  unfold same_used_cells. eapply Forall_impl; [exact Hcols|].
  intros k Hk. cbv beta in *.
  etrans; [apply list_lookup_fmap|]. symmetry.
  etrans; [apply list_lookup_fmap|]. by rewrite Hk.
Qed.

(** C10, as amended.  Two well-formed frames that both pass the column
    check, have as many rows, hold the same columns at the positions 1, 2, 3, 5 and
    8, and whose columns have the same common dtype, the dtype in which
    [df.iterrows()] presents every row, give the same page and the same
    document.  The columns 0, 4, 6, 7 and those after the ninth bear
    on the document through that dtype and in no other way. *)
Theorem unused_columns_interfere_only_by_dtype f f' :
  well_formed_frame f → well_formed_frame f' →
  9 ≤ length (frame_columns f) → 9 ≤ length (frame_columns f') →
  frame_len f = frame_len f' →
  find_common_type (column_dtype <$> frame_data f)
  = find_common_type (column_dtype <$> frame_data f') →
  same_used_columns f f' →
  main (to_table f) = main (to_table f')
  ∧ build (to_table f) = build (to_table f').
Proof.
  intros _ _ Hc Hc' Hlen Ht Hcols.
  apply same_used_cells_same_run; [done|done|].
  by apply values_same_used_cells.
Qed.

End Claims.

(** * The example tables, run with the reference library *)

Section Runs.
Import Examples.
#[local] Existing Instance Reference.lib.
#[local] Existing Instance Reference.first_free.

Lemma build_sample : build sample = inr sample_tree.
Proof. vm_compute. reflexivity. Qed.

(** The reference [float] and [repr] on a few values. *)
Example reference_float_samples :
  float_of_str " 1_000.5e-2 " = Some (S754_finite false 5632314283980227 (-49))
  ∧ float_of_str "1,5" = None
  ∧ float_of_str "-Infinity" = Some (S754_infinity true)
  ∧ str_of_float (S754_finite false 5632314283980227 (-49)) = "10.005"
  ∧ str_of_float (S754_finite false 5000000000000000 1) = "1e+16"
  ∧ str_of_float (S754_finite false 5902958103587057 (-69)) = "1e-05".
Proof. vm_compute. done. Qed.

(** The spec's example: two folders for two points, and the coordinates
    of the first point with the longitude first. *)
Example spec_example :
  take 2 (folder_names sample_tree) = [Some "SP"; Some "RJ"]
  ∧ coordinates_text <$> placemarks_in "SP" sample_tree
    = [Some "-46.6333,-23.5505,0"; Some "-44.0,-19.9167,0"]
  ∧ findtext "description" <$> placemarks sample_tree
    = [Some "desc1"; None; None; None].
Proof. vm_compute. done. Qed.

(** Folder names are compared as they are: case and blanks count. *)
Example spellings_are_distinct_folders :
  ∃ tree, build spellings = inr tree
          ∧ folder_names tree = [Some "SP"; Some "sp"; Some "SP "]
          ∧ length (placemarks_in "SP" tree) = 2.
Proof. eexists. vm_compute. done. Qed.

Lemma placemark_count_is_rows_float_accepts_witness :
  Forall (λ row, coordinates_present row = true) (data sample)
  ∧ build sample = inr sample_tree
  ∧ length (placemarks sample_tree)
    = length (filter (λ row, float_accepts row) (data sample))
  ∧ build_rows (length (data sample))
               (filter (λ ir, float_accepts ir.2) (iterrows sample))
    = inr sample_tree.
Proof.
  assert (Forall (λ row, coordinates_present row = true) (data sample))
    as H by (repeat constructor).
  split; [exact H|]. split; [vm_compute; reflexivity|].
  apply (placemark_count_is_rows_float_accepts sample sample_tree);
    [exact H | vm_compute; reflexivity].
Defined.

Lemma folders_unique_in_first_seen_order_witness :
  build sample = inr sample_tree
  ∧ folder_names sample_tree
    = Some <$> first_seen (folderName <$> records (iterrows sample))
  ∧ NoDup (folder_names sample_tree)
  ∧ ∀ n, placemarks_in n sample_tree
         = placemark_of <$> in_folder n (records (iterrows sample)).
Proof.
  split; [vm_compute; reflexivity|].
  apply (folders_unique_in_first_seen_order sample sample_tree).
  vm_compute; reflexivity.
Defined.

Lemma coordinates_text_is_lon_lat_0_witness :
  build sample = inr sample_tree
  ∧ ∀ p, p ∈ placemarks sample_tree →
     ∃ i row clat clon lat lon,
       data sample !! i = Some row
       ∧ row !! 2 = Some clat ∧ row !! 3 = Some clon
       ∧ float clat = inr lat ∧ float clon = inr lon
       ∧ coordinates_text p
         = Some (str_of_float lon +:+ "," +:+ str_of_float lat +:+ ",0").
Proof.
  split; [vm_compute; reflexivity|].
  apply (coordinates_text_is_lon_lat_0 sample sample_tree).
  vm_compute; reflexivity.
Defined.

Lemma missing_name_is_Ponto_row_number_witness :
  build sample = inr sample_tree
  ∧ pd_notna blank = false
  ∧ name sample_ponto = "Ponto_3"
  ∧ placemark_of sample_ponto ∈ placemarks_in "Geral" sample_tree.
Proof.
  split; [vm_compute; reflexivity|]. split; [reflexivity|].
  destruct (missing_name_is_Ponto_row_number sample sample_tree 2
              [PyInt 3; blank; number true 8893201889173176 (-49);
               number true 6740185718564533 (-47); blank; blank; blank;
               blank; blank] blank sample_ponto)
    as (Hin & _ & Hname & _);
    [vm_compute; reflexivity | reflexivity | reflexivity
    | vm_compute; reflexivity |].
  split; [exact (Hname eq_refl) | exact Hin].
Defined.

Lemma missing_folder_is_Geral_witness :
  build sample = inr sample_tree
  ∧ pd_notna blank = false
  ∧ folderName sample_ponto = "Geral"
  ∧ placemark_of sample_ponto ∈ placemarks_in "Geral" sample_tree.
Proof.
  split; [vm_compute; reflexivity|]. split; [reflexivity|].
  destruct (missing_folder_is_Geral sample sample_tree 2
              [PyInt 3; blank; number true 8893201889173176 (-49);
               number true 6740185718564533 (-47); blank; blank; blank;
               blank; blank] blank sample_ponto)
    as (Hin & Hfolder & _);
    [vm_compute; reflexivity | reflexivity | reflexivity
    | vm_compute; reflexivity |].
  split; [exact (Hfolder eq_refl) | exact Hin].
Defined.

Lemma too_few_columns_only_reports_witness :
  length (columns narrow) < 9 ∧ main narrow = [st_error InsufficientColumns].
Proof.
  split; [vm_compute; lia|].
  apply (too_few_columns_only_reports narrow). vm_compute; lia.
Defined.

Lemma description_child_iff_nonempty_witness :
  build sample = inr sample_tree
  ∧ find_child "description" (placemark_of sample_ponto) = None.
Proof.
  split; [vm_compute; reflexivity|].
  destruct (description_child_iff_nonempty sample sample_tree 2
              [PyInt 3; blank; number true 8893201889173176 (-49);
               number true 6740185718564533 (-47); blank; blank; blank;
               blank; blank] blank sample_ponto)
    as (_ & _ & _ & Hnone);
    [vm_compute; reflexivity | reflexivity | reflexivity
    | vm_compute; reflexivity |].
  apply Hnone. left. reflexivity.
Defined.





(** C5, counterexample.  The third row of [sample] has no name and
    passes; its Placemark is named Ponto_3, and no Placemark of the
    document is named Point_3.  A name cell with the empty string gives
    the empty name, not a placeholder. *)
Lemma third_row_is_named_Ponto_3 :
  build sample = inr sample_tree
  ∧ (data sample !! 2 ≫= λ row, row !! 1) = Some blank
  ∧ pd_notna blank = false
  ∧ findtext "name" <$> placemarks sample_tree
    = [Some "Pt A"; Some "Pt E"; Some "Pt B"; Some "Ponto_3"]
  ∧ (Some "Point_3" ∉ findtext "name" <$> placemarks sample_tree)
  ∧ build empty_text = inr empty_text_tree
  ∧ findtext "name" <$> placemarks empty_text_tree = [Some ""].
Proof.
  split_and!; try (vm_compute; reflexivity).
  apply (bool_decide_unpack _). vm_compute. done.
Qed.

(** C6, counterexample.  The third row of [sample] has no folder name
    and passes; its Placemark is in the folder named Geral, and the
    document has no folder named General.  A folder cell with the empty
    string gives a folder with the empty name. *)
Lemma third_row_is_in_folder_Geral :
  build sample = inr sample_tree
  ∧ (data sample !! 2 ≫= λ row, row !! 5) = Some blank
  ∧ pd_notna blank = false
  ∧ folder_names sample_tree = [Some "SP"; Some "RJ"; Some "Geral"]
  ∧ findtext "name" <$> placemarks_in "Geral" sample_tree = [Some "Ponto_3"]
  ∧ placemarks_in "General" sample_tree = []
  ∧ build empty_text = inr empty_text_tree
  ∧ folder_names empty_text_tree = [Some ""].
Proof. split_and!; vm_compute; reflexivity. Qed.

End Runs.

(** * Further properties of the program *)

(** ** The page of a whole run *)

Section Pages.
Context {L : PyLib}.

Lemma spec_loop_success total_rows irows d tr :
  Forall (λ ir, ∃ o, extract ir.1 ir.2 = inr o) irows →
  spec_loop total_rows irows (d, tr)
  = (inr (), (foldl (λ d r, add_record r d) d (records irows),
              tr ++ (irows.*1 ≫= row_events total_rows))).
Proof.
  intros H. revert d tr.
  induction H as [|[i row] irows [o Ho] _ IH]; intros d tr.
  - simpl. by rewrite app_nil_r.
  - cbn [fst snd] in Ho.
    cbn [spec_loop]. unfold spec_row. cbn [fst snd]. rewrite records_cons.
    cbn [fst snd]. rewrite Ho, fmap_cons, bind_cons. cbn [fst].
    destruct o as [r|]; rewrite IH; by rewrite <- app_assoc.
Qed.

Lemma spec_loop_failure total_rows irows d tr e :
  (spec_loop total_rows irows (d, tr)).1 = inl e →
  ∃ k ir, irows !! k = Some ir ∧ extract ir.1 ir.2 = inl e
    ∧ Forall (λ ir, ∃ o, extract ir.1 ir.2 = inr o) (take k irows)
    ∧ (spec_loop total_rows irows (d, tr)).2.2
      = tr ++ ((take (S k) irows).*1 ≫= row_events total_rows).
Proof.
  revert d tr. induction irows as [|[i row] irows IH]; intros d tr; [done|].
  cbn [spec_loop]. unfold spec_row. cbn [fst snd].
  destruct (extract i row) as [e'|o] eqn:Hex.
  - cbn [fst snd]. intros [= ->]. exists 0, (i, row).
    split_and!; [done|done|constructor|].
    cbn [take fmap list_fmap]. rewrite bind_cons. cbn [fst mbind list_bind].
    by rewrite app_nil_r.
  - assert (∀ d', (spec_loop total_rows irows
                     (d', tr ++ row_events total_rows i)).1 = inl e →
              ∃ k ir, ((i, row) :: irows) !! k = Some ir
                ∧ extract ir.1 ir.2 = inl e
                ∧ Forall (λ ir, ∃ o, extract ir.1 ir.2 = inr o)
                         (take k ((i, row) :: irows))
                ∧ (spec_loop total_rows irows
                     (d', tr ++ row_events total_rows i)).2.2
                  = tr ++ ((take (S k) ((i, row) :: irows)).*1
                             ≫= row_events total_rows)) as Hstep.
    { intros d' (k & ir & Hk & Hir & Hpre & Htr)%IH.
      exists (S k), ir. split_and!; [done|done| |].
      - cbn [take]. constructor; [by eexists|done].
      - rewrite Htr. cbn [take]. rewrite fmap_cons, bind_cons.
        cbn [fst]. by rewrite <- app_assoc. }
    destruct o as [r|]; apply Hstep.
Qed.

Lemma iterrows_indices df : (iterrows df).*1 = seq 0 (length (data df)).
Proof. unfold iterrows. apply fst_zip. by rewrite length_seq. Qed.

Lemma iterrows_length df : length (iterrows df) = length (data df).
Proof. by rewrite <- (length_fmap fst), iterrows_indices, length_seq. Qed.

Lemma iterrows_lookup df k i (row : Row) :
  iterrows df !! k = Some (i, row) ↔ i = k ∧ data df !! k = Some row.
Proof.
  unfold iterrows. rewrite lookup_zip_Some. cbn [fst snd]. split.
  - by intros [[-> _]%lookup_seq ?].
  - intros [-> H]. split; [|done]. apply lookup_seq. split; [done|].
    by apply lookup_lt_Some in H.
Qed.

Lemma grouped_length recs :
  length (grouped recs) = length (first_seen (folderName <$> recs)).
Proof. unfold grouped. by rewrite length_fmap. Qed.

Lemma grouped_names recs :
  (grouped recs).*1 = first_seen (folderName <$> recs).
Proof.
  unfold grouped. rewrite <- list_fmap_compose. by apply fmap_id_on.
Qed.

Section WithAllocator.
Context {Al : Allocator}.

(** X1.  The page of a run that succeeds: the bar at zero and the empty
    status line, then for every row of the table, in order and whether
    the row is kept or passed over, the progress and the status text,
    then the two widgets cleared, the success notice, the download of
    the text of the document, and the statistics.  The statistics give
    the number of rows of the table (not of points written), the number
    of Folder elements of the document, and the folder names in order of
    first appearance, joined by a comma and a blank. *)
Theorem page_of_successful_run df tree xml :
  9 ≤ length (columns df) →
  build df = inr tree → xml_pretty tree = inr xml →
  main df
  = [st_progress 0 1; st_empty]
    ++ rows_events (length (data df)) (length (data df))
    ++ [st_empty; st_empty; st_success; st_download_button xml;
        st_info (length (data df)) (length (folder_elements tree))
          (String.concat ", "
             (first_seen (folderName <$> records (iterrows df))))].
Proof.
  intros Hcols Hbuild Hxml. destruct (build_inr _ _ Hbuild) as [Hok ->].
  rewrite main_spec. unfold spec_main. rewrite decide_False by lia.
  rewrite (spec_loop_success _ _ _ _ Hok). cbn [foldl].
  fold (group (records (iterrows df))). rewrite group_grouped, Hxml.
  rewrite folder_elements_tree, length_fmap, grouped_names, iterrows_indices.
  by rewrite <- app_assoc.
Qed.

(** X2.  The page of a run in which a row raises an exception the inner
    handler does not catch: the rows before it were all read without
    error, the page shows the progress of the rows up to and including
    that row and then the one error report; later rows are not touched,
    and neither success notice nor download nor statistics appear. *)
Theorem page_of_failed_row df e :
  9 ≤ length (columns df) → build df = inl e →
  ∃ k row,
    data df !! k = Some row ∧ extract k row = inl e
    ∧ (∀ j row', j < k → data df !! j = Some row' →
       ∃ o, extract j row' = inr o)
    ∧ main df
      = [st_progress 0 1; st_empty]
        ++ rows_events (length (data df)) (S k)
        ++ [st_error (ProcessingError e)].
Proof.
  intros Hcols Hbuild. unfold build in Hbuild.
  rewrite build_rows_spec in Hbuild.
  pose proof (spec_loop_folders (length (data df)) (iterrows df) []
                [st_progress 0 1; st_empty] []) as [E1 _].
  assert ((spec_loop (length (data df)) (iterrows df)
             ([], [st_progress 0 1; st_empty])).1 = inl e) as Hfail.
  { rewrite E1. by destruct (spec_loop _ _ ([], [])) as [[?|[]] ?];
      simplify_eq/=. }
  destruct (spec_loop_failure _ _ _ _ _ Hfail)
    as (k & [i row] & Hk & Hex & Hpre & Htr).
  apply iterrows_lookup in Hk as [-> Hk]. cbn [fst snd] in Hex.
  exists k, row. split_and!; [done|done| |].
  - intros j row' Hj Hrow'.
    apply (proj1 (Forall_forall _ _) Hpre (j, row')).
    apply list_elem_of_lookup. exists j. rewrite lookup_take_lt by done.
    by apply iterrows_lookup.
  - rewrite main_spec. unfold spec_main. rewrite decide_False by lia.
    destruct (spec_loop _ _ ([], [st_progress 0 1; st_empty]))
      as [[e'|[]] [d tr]] eqn:Hloop; cbn [fst snd] in Hfail, Htr; [|done].
    injection Hfail as ->. rewrite Htr.
    rewrite fmap_take, iterrows_indices, take_seq.
    apply lookup_lt_Some in Hk. unfold rows_events.
    by rewrite Nat.min_l, <- app_assoc by lia.
Qed.

(** X3.  The page of a run whose document cannot be serialised: every
    row has shown its progress, and the error report follows at once;
    nothing is offered for download, so no partial file exists. *)
Theorem page_of_failed_serialisation df tree e :
  9 ≤ length (columns df) →
  build df = inr tree → xml_pretty tree = inl e →
  main df
  = [st_progress 0 1; st_empty]
    ++ rows_events (length (data df)) (length (data df))
    ++ [st_error (ProcessingError e)].
Proof.
  intros Hcols Hbuild Hxml. destruct (build_inr _ _ Hbuild) as [Hok ->].
  rewrite main_spec. unfold spec_main. rewrite decide_False by lia.
  rewrite (spec_loop_success _ _ _ _ Hok). cbn [foldl].
  fold (group (records (iterrows df))). rewrite group_grouped, Hxml.
  by rewrite iterrows_indices, <- app_assoc.
Qed.

End WithAllocator.
End Pages.

(** ** Which runs fail, and what every page has *)

Section Outcomes.
Context {L : PyLib}.

Lemma float_error c e :
  float c = inl e → caught e = true ∨ (e = OverflowError ∧ too_large c = true).
Proof.
  destruct c as [|f|n|b|s|s]; simpl; try (intros [= <-]; by left).
  - destruct (binary_normalize prec emax n 0 false); try done.
    intros [= <-]. by right.
  - destruct (float_of_str s); [done|]. intros [= <-]. by left.
Qed.

Lemma try_float_error clat clon e :
  try_float clat clon = inl e →
  caught e = true
  ∨ (e = OverflowError ∧ (too_large clat = true ∨ too_large clon = true)).
Proof.
  unfold try_float. destruct (float clat) as [e1|lat] eqn:Hlat.
  - intros [= ->]. apply float_error in Hlat as [?|[-> ?]]; auto.
  - destruct (float clon) as [e2|lon] eqn:Hlon; [|done].
    intros [= ->]. apply float_error in Hlon as [?|[-> ?]]; auto.
Qed.

Lemma extract_error i (row : Row) e :
  extract i row = inl e →
  (e = IndexError ∧ length row < 9)
  ∨ (e = OverflowError
     ∧ ∃ c, (row !! 2 = Some c ∨ row !! 3 = Some c) ∧ too_large c = true).
Proof.
  unfold extract.
  destruct (row !! 1) as [c1|] eqn:H1;
    [|intros [= <-]; left; split; [done|]; apply lookup_ge_None in H1; lia].
  destruct (row !! 2) as [clat|] eqn:H2;
    [|intros [= <-]; left; split; [done|]; apply lookup_ge_None in H2; lia].
  destruct (row !! 3) as [clon|] eqn:H3;
    [|intros [= <-]; left; split; [done|]; apply lookup_ge_None in H3; lia].
  destruct (row !! 5) as [c5|] eqn:H5;
    [|intros [= <-]; left; split; [done|]; apply lookup_ge_None in H5; lia].
  destruct (row !! 8) as [c8|] eqn:H8;
    [|intros [= <-]; left; split; [done|]; apply lookup_ge_None in H8; lia].
  destruct (try_float clat clon) as [e'|[lat lon]] eqn:Hf; [|done].
  destruct (caught e') eqn:Hc; [done|]. intros [= ->].
  apply try_float_error in Hf as [?|[-> [?|?]]]; [congruence|..];
    right; (split; [done|]); [exists clat|exists clon]; auto.
Qed.

Lemma rows_events_app total_rows (l1 l2 : list nat) :
  ((l1 ++ l2) ≫= row_events total_rows)
  = (l1 ≫= row_events total_rows) ++ (l2 ≫= row_events total_rows).
Proof. apply bind_app. Qed.

Lemma Forall_rows_events (P : ui_event → Prop) total_rows k :
  (∀ i, i < k → Forall P (row_events total_rows i)) →
  Forall P (rows_events total_rows k).
Proof.
  intros H. unfold rows_events. apply Forall_bind, Forall_forall.
  intros i [_ Hi]%elem_of_seq. apply H. lia.
Qed.

Lemma filter_rows_events (P : ui_event → Prop) `{∀ ev, Decision (P ev)}
    total_rows k :
  (∀ num den, ¬ P (st_progress num den)) → (∀ s, ¬ P (st_text s)) →
  filter P (rows_events total_rows k) = [].
Proof.
  intros Hp Ht. apply filter_none, Forall_rows_events. intros i _.
  unfold row_events. repeat constructor; [apply Hp|apply Ht].
Qed.

Lemma elem_of_page ev total_rows k tail :
  ¬ is_row_event ev → ev ≠ st_empty →
  ev ∈ [st_progress 0 1; st_empty] ++ rows_events total_rows k ++ tail
  ↔ ev ∈ tail.
Proof.
  intros Hrow Hempty. rewrite !elem_of_app. split; [|auto].
  intros [H|[H|H]]; [| |done].
  - apply elem_of_cons in H as [->|H]; [by destruct Hrow|].
    by apply list_elem_of_singleton in H.
  - destruct Hrow.
    apply (proj1 (Forall_forall _ _)
             (Forall_rows_events is_row_event total_rows k
                ltac:(intros; unfold row_events; by repeat constructor))
             ev H).
Qed.

Section WithAllocator.
Context {Al : Allocator}.

(** Every page is the report on the columns, or the opening, the
    progress of some first rows, and one of the two endings. *)
Lemma main_shape df :
  main df = [st_error InsufficientColumns]
  ∨ ∃ k tail,
      k ≤ length (data df)
      ∧ main df
        = [st_progress 0 1; st_empty]
          ++ rows_events (length (data df)) k ++ tail
      ∧ ((∃ e, tail = [st_error (ProcessingError e)])
         ∨ (∃ xml n names,
              tail = [st_empty; st_empty; st_success; st_download_button xml;
                      st_info (length (data df)) n names])).
Proof.
  rewrite main_spec. unfold spec_main.
  destruct (decide (length (columns df) < 9)); [by left|right].
  destruct (spec_loop _ _ ([], [st_progress 0 1; st_empty]))
    as [[e|[]] [d tr]] eqn:Hloop.
  - assert ((spec_loop (length (data df)) (iterrows df)
               ([], [st_progress 0 1; st_empty])).1 = inl e) as Hfail
      by (by rewrite Hloop).
    destruct (spec_loop_failure _ _ _ _ _ Hfail)
      as (k & [i row] & Hk & _ & _ & Htr).
    rewrite Hloop in Htr. cbn [fst snd] in Htr.
    apply iterrows_lookup in Hk as [-> Hk]. apply lookup_lt_Some in Hk.
    exists (S k), [st_error (ProcessingError e)].
    split; [lia|]. split; [|left; by eexists].
    rewrite Htr, fmap_take, iterrows_indices, take_seq.
    unfold rows_events. by rewrite Nat.min_l, <- app_assoc by lia.
  - assert (Forall (λ ir, ∃ o, extract ir.1 ir.2 = inr o) (iterrows df))
      as Hok by (eapply spec_loop_inr; by rewrite Hloop).
    rewrite (spec_loop_success _ _ _ _ Hok) in Hloop.
    injection Hloop as <- <-. rewrite iterrows_indices.
    fold (rows_events (length (data df)) (length (data df))).
    destruct (xml_pretty _) as [e|xml].
    + exists (length (data df)), [st_error (ProcessingError e)].
      split; [done|]. split; [done|left; by eexists].
    + eexists (length (data df)), _.
      split; [done|]. split; [done|right; by eexists _, _, _].
Qed.

Lemma build_inl_row df e :
  build df = inl e →
  ∃ k row, data df !! k = Some row ∧ extract k row = inl e.
Proof.
  unfold build. rewrite build_rows_spec.
  destruct (spec_loop _ _ ([], [])).1 as [e'|[]] eqn:Hfail; [|done].
  intros [= ->].
  destruct (spec_loop_failure _ _ _ _ _ Hfail) as (k & [i row] & Hk & Hex & _).
  apply iterrows_lookup in Hk as [-> Hk]. by exists k, row.
Qed.

(** X4.  On a table as pandas holds it, one with a cell in every column
    of every row, and with the nine columns the handler asks for, the
    row loop can fail in one way only: OverflowError, from an integer
    in the latitude or longitude cell of some row that is too large for
    a double.  In particular no row is out of range for [iloc], and the
    look-up in [folders] never misses. *)
Theorem rows_fail_only_by_overflow df e :
  9 ≤ length (columns df) → rectangular df → build df = inl e →
  e = OverflowError
  ∧ ∃ k row c, data df !! k = Some row
      ∧ (row !! 2 = Some c ∨ row !! 3 = Some c) ∧ too_large c = true.
Proof.
  intros Hcols Hrect (k & row & Hk & Hex)%build_inl_row.
  apply extract_error in Hex as [[_ Hlen]|[-> (c & Hc & Hlarge)]].
  - apply list_elem_of_lookup_2 in Hk.
    pose proof (proj1 (Forall_forall _ _) Hrect row Hk) as Hrow.
    simpl in Hrow. lia.
  - split; [done|]. by exists k, row, c.
Qed.

(** X5.  Every run ends in exactly one of two ways: one error report,
    or one download.  And the success notice is on the page exactly
    when a download is. *)
Theorem one_report_or_one_download df :
  length (filter (λ ev, is_error ev) (main df))
  + length (filter (λ ev, is_download ev) (main df)) = 1
  ∧ (st_success ∈ main df ↔ ∃ xml, st_download_button xml ∈ main df).
Proof.
  destruct (main_shape df)
    as [->|(k & tail & _ & -> & [[e ->]|(xml & n & names & ->)])].
  - split; [done|]. split.
    + intros [=]%list_elem_of_singleton.
    + intros [xml [=]%list_elem_of_singleton].
  - rewrite !filter_app, !filter_rows_events by (intros; simpl; tauto).
    split; [done|]. split.
    + intros [=]%elem_of_page%list_elem_of_singleton;
        first [done | simpl; tauto].
    + intros [xml [=]%elem_of_page%list_elem_of_singleton];
        first [done | simpl; tauto].
  - rewrite !filter_app, !filter_rows_events by (intros; simpl; tauto).
    split; [done|]. split; intros _.
    + exists xml. apply elem_of_page; [simpl; tauto|done|].
      do 3 apply list_elem_of_further. apply list_elem_of_here.
    + apply elem_of_page; [simpl; tauto|done|].
      do 2 apply list_elem_of_further. apply list_elem_of_here.
Qed.

(** X6.  Whatever the table, every value given to the progress bar is a
    fraction between 0 and 1, over a denominator that is not zero: the
    quotient [(index + 1) / total_rows] is only formed inside the loop,
    where there is at least one row. *)
Theorem progress_always_in_range df : Forall progress_in_range (main df).
Proof.
  destruct (main_shape df)
    as [->|(k & tail & Hk & -> & Htail)].
  - by repeat constructor.
  - rewrite !Forall_app. split_and!.
    + repeat constructor; simpl; lia.
    + apply Forall_rows_events. intros i Hi. unfold row_events.
      repeat constructor; simpl; lia.
    + destruct Htail as [[e ->]|(xml & n & names & ->)];
        by repeat constructor.
Qed.

End WithAllocator.
End Outcomes.

(** ** What every document is like *)

Section Documents.
Context {L : PyLib}.

Lemma placemark_of_shaped r : placemark_shaped (placemark_of r).
Proof.
  rewrite placemark_of_eq. eexists _, _. case_bool_decide; simpl.
  - right. by eexists.
  - by left.
Qed.

Lemma grouped_nonempty recs : Forall (λ f : Folder, f.2 ≠ []) (grouped recs).
Proof.
  unfold grouped. apply Forall_fmap, Forall_forall. intros n Hn. simpl.
  apply first_seen_elem_of, list_elem_of_fmap in Hn as (r & -> & Hr).
  intros Hnil. assert (r ∈ in_folder (folderName r) recs) as Hin
    by by apply list_elem_of_filter.
  rewrite Hnil in Hin. by apply elem_of_nil in Hin.
Qed.

Lemma folder_element_shaped (f : Folder) :
  f.2 ≠ [] → folder_shaped (folder_element f).
Proof.
  destruct f as [n [|r rs]]; [done|]. intros _.
  exists n, (placemark_of r), (placemark_of <$> rs). split; [done|].
  rewrite <- fmap_cons. apply Forall_fmap, Forall_forall.
  intros r' _. apply placemark_of_shaped.
Qed.

Lemma first_seen_length l : length (first_seen l) ≤ length l.
Proof.
  induction l as [|x l IH]; simpl; [done|].
  pose proof (length_filter (λ y, y ≠ x) (first_seen l)). lia.
Qed.

Lemma records_le irows : length (records irows) ≤ length irows.
Proof.
  induction irows as [|ir irows IH]; [done|].
  rewrite records_cons. destruct (extract _ _) as [|[|]]; simpl; lia.
Qed.

Lemma add_record_Permutation r (d : list Folder) :
  add_record r d ≫= snd ≡ₚ r :: (d ≫= snd).
Proof.
  induction d as [|[n rs] d IH]; [done|].
  cbn [add_record]. destruct (decide (n = folderName r)).
  - rewrite !bind_cons. cbn [snd]. rewrite <- app_assoc. simpl.
    by rewrite <- Permutation_middle.
  - rewrite !bind_cons, IH. cbn [snd]. by rewrite <- Permutation_middle.
Qed.

Lemma foldl_add_record_Permutation recs (d : list Folder) :
  foldl (λ d r, add_record r d) d recs ≫= snd ≡ₚ (d ≫= snd) ++ recs.
Proof.
  revert d. induction recs as [|r recs IH]; intros d; simpl.
  - by rewrite app_nil_r.
  - by rewrite IH, add_record_Permutation, <- Permutation_middle.
Qed.

Lemma bind_placemarks (d : list Folder) :
  (d ≫= λ f, placemark_of <$> f.2) = placemark_of <$> (d ≫= snd).
Proof.
  induction d as [|f d IH]; [done|].
  by rewrite !bind_cons, fmap_app, IH.
Qed.

(** Folders by position: a record is added at the end of the folder it
    belongs to, or as a new folder at the end; nothing else moves. *)
Lemma add_record_grows r (d : list Folder) j n rs :
  d !! j = Some (n, rs) →
  ∃ rs', add_record r d !! j = Some (n, rs ++ rs').
Proof.
  revert j. induction d as [|[n' rs0] d IH]; intros j; [done|].
  cbn [add_record]. destruct (decide (n' = folderName r)).
  - destruct j; simpl.
    + intros [= -> ->]. by eexists.
    + intros ->. exists []. by rewrite app_nil_r.
  - destruct j; simpl.
    + intros [= -> ->]. exists []. by rewrite app_nil_r.
    + apply IH.
Qed.

Lemma foldl_add_record_grows recs (d : list Folder) j n rs :
  d !! j = Some (n, rs) →
  ∃ rs', foldl (λ d r, add_record r d) d recs !! j = Some (n, rs ++ rs').
Proof.
  revert d rs. induction recs as [|r recs IH]; intros d rs Hj; simpl.
  - exists []. by rewrite app_nil_r.
  - destruct (add_record_grows r d j n rs Hj) as [rs1 H1].
    destruct (IH _ _ H1) as [rs2 H2]. exists (rs1 ++ rs2).
    by rewrite app_assoc.
Qed.

Lemma records_app irows more :
  records (irows ++ more) = records irows ++ records more.
Proof. apply omap_app. Qed.

Section WithAllocator.
Context {Al : Allocator}.

(** X7.  The shape of every document the loop builds: a [kml] root
    with the name space of KML 2.2 and one [Document] child; under it
    only [Folder] elements; in a Folder a [name] and then one Placemark
    at least, so no folder is empty; in a Placemark a [name], an
    optional non-empty [description], and a [Point] with one
    [coordinates] child, in this order. *)
Theorem document_shape df tree :
  build df = inr tree →
  ∃ fs, tree = Elem "kml" [("xmlns", "http://www.opengis.net/kml/2.2")] None
                    [Elem "Document" [] None fs]
        ∧ Forall folder_shaped fs.
Proof.
  intros [_ ->]%build_inr. eexists. split; [done|].
  apply Forall_fmap. eapply Forall_impl; [apply grouped_nonempty|].
  intros f. apply folder_element_shaped.
Qed.

(** X8.  There are at most as many folders as points, and at most as
    many points as rows in the table. *)
Theorem folders_le_placemarks_le_rows df tree :
  build df = inr tree →
  length (folder_elements tree) ≤ length (placemarks tree)
  ∧ length (placemarks tree) ≤ length (data df).
Proof.
  intros [_ ->]%build_inr.
  rewrite folder_elements_tree, length_fmap, grouped_length.
  rewrite <- group_grouped, placemarks_count, group_count.
  split.
  - etrans; [apply first_seen_length|]. by rewrite length_fmap.
  - etrans; [apply records_le|]. by rewrite iterrows_length.
Qed.

(** X9.  The placemarks of the document are those of the rows that
    pass, each as often as it arises: grouping into folders only
    rearranges them. *)
Theorem placemarks_are_the_records df tree :
  build df = inr tree →
  placemarks tree ≡ₚ placemark_of <$> records (iterrows df).
Proof.
  intros [_ ->]%build_rows_inr.
  rewrite placemarks_tree, bind_placemarks. apply fmap_Permutation.
  unfold group. by rewrite foldl_add_record_Permutation.
Qed.

(** X10.  Reading further rows only appends: a folder that is in the
    document after some rows is at the same position after more rows,
    with the same children followed by the new ones. *)
Theorem more_rows_only_append total_rows irows more tree' :
  build_rows total_rows (irows ++ more) = inr tree' →
  ∃ tree, build_rows total_rows irows = inr tree
    ∧ ∀ j f, folder_elements tree !! j = Some f →
        ∃ cs extra,
          f = Elem "Folder" [] None cs
          ∧ folder_elements tree' !! j
            = Some (Elem "Folder" [] None (cs ++ extra)).
Proof.
  intros [[Hok _]%Forall_app ->]%build_rows_inr.
  eexists. split; [by apply build_rows_ok|].
  intros j f. rewrite !folder_elements_tree, !list_lookup_fmap.
  destruct (group (records irows) !! j) as [[n rs]|] eqn:Hj; [|done].
  intros [= <-]. rewrite records_app. unfold group in *. rewrite foldl_app.
  destruct (foldl_add_record_grows (records more) _ j n rs Hj) as [rs' Hj'].
  eexists _, (placemark_of <$> rs'). split; [done|].
  apply fmap_Some. eexists. split; [exact Hj'|].
  unfold folder_element. simpl. by rewrite fmap_app.
Qed.

End WithAllocator.
End Documents.

(** ** States between rows, and single rows *)

Section States.
Context {L : PyLib} {Al : Allocator}.

Lemma reachable_grouped st :
  reachable st →
  ∃ recs, Forall2 (held_by (store st)) (folders st) (grouped recs)
          ∧ document st = (folders st).*2 ∧ NoDup (folders st).*2.
Proof.
  intros (total_rows & irows & Hrun).
  destruct (for_each_sim total_rows irows initial ([], []) represents_initial)
    as (st' & Hrun' & Hrep).
  rewrite Hrun in Hrun'. injection Hrun' as Hok <-.
  destruct Hrep as (Hheld & Hdoc & Hnd & _).
  rewrite (spec_loop_ok _ _ _ (eq_sym Hok)) in Hheld. cbn [fst] in Hheld.
  fold (group (records irows)) in Hheld. rewrite group_grouped in Hheld.
  by exists (records irows).
Qed.

(** X11.  Between two rows the dictionary [folders] and the Document
    element agree: the Document's children are the values of the
    dictionary in insertion order, no name and no element occurs twice,
    and the element kept under a name is a Folder whose [name] child
    carries that name and which holds one Placemark at least. *)
Theorem folders_and_document_agree st :
  reachable st →
  document st = (folders st).*2
  ∧ NoDup (folders st).*1 ∧ NoDup (folders st).*2
  ∧ ∀ n l, (n, l) ∈ folders st →
      ∃ p ps,
        store st !! l
        = Some (Elem "Folder" [] None (Elem "name" [] (Some n) [] :: p :: ps))
        ∧ Forall placemark_shaped (p :: ps).
Proof.
  intros (recs & Hheld & Hdoc & Hnd)%reachable_grouped.
  split_and!; [done| |done|].
  - rewrite (held_names _ _ _ Hheld), grouped_names. apply first_seen_NoDup.
  - intros n l [j Hj]%list_elem_of_lookup.
    destruct (Forall2_lookup_l _ _ _ _ _ Hheld Hj) as (f & Hf & Hname & Hl).
    simpl in Hname, Hl. subst n.
    apply list_elem_of_lookup_2 in Hf.
    pose proof (proj1 (Forall_forall _ _) (grouped_nonempty recs) f Hf) as Hne.
    destruct f as [n [|r rs]]; [done|].
    exists (placemark_of r), (placemark_of <$> rs). split; [done|].
    rewrite <- fmap_cons. apply Forall_fmap, Forall_forall.
    intros r' _. apply placemark_of_shaped.
Qed.

(** X12.  A row that raises has changed nothing but the page: the
    store, the Document and the dictionary are as before the row, and
    the page has the progress and the status text of the row.  The
    exception is IndexError or OverflowError, both raised before the
    first Folder or Placemark of the row is made; the look-up
    [folders[folder_name]] cannot miss, in whatever state the row is
    processed. *)
Theorem failing_row_changes_only_the_page total_rows i (row : Row) st e st' :
  process_row total_rows (i, row) st = (inl e, st') →
  (e = IndexError ∨ e = OverflowError)
  ∧ st' = State (store st) (document st) (folders st)
                (ui st ++ row_events total_rows i).
Proof.
  destruct st as [σ doc fs u].
  unfold process_row, iloc, row_events.
  unfold mbind, M_bind, mret, M_ret, show, raise; cbn.
  assert (∀ e1 e2 : ui_event, (u ++ [e1]) ++ [e2] = u ++ [e1; e2]) as Hu
    by (intros; by rewrite <- app_assoc).
  destruct (row !! 1) as [c1|]; [|intros [= <- <-]; rewrite Hu; auto].
  destruct (row !! 2) as [lat|]; [|intros [= <- <-]; rewrite Hu; auto].
  destruct (row !! 3) as [lon|]; [|intros [= <- <-]; rewrite Hu; auto].
  destruct (row !! 5) as [c5|]; [|intros [= <- <-]; rewrite Hu; auto].
  destruct (row !! 8) as [c8|]; [|intros [= <- <-]; rewrite Hu; auto]. cbn.
  destruct (try_float lat lon) as [e'|[la lo]] eqn:Htry.
  - destruct (caught e') eqn:Hc; [done|]. intros [= -> <-].
    split; [|by rewrite Hu].
    apply try_float_error in Htry as [?|[-> _]]; [congruence|auto].
  - unfold folders_contains, dict_contains, folders_get, add_placemark; cbn.
    case_bool_decide as Hknown; cbn.
    + destruct Hknown as [l Hl]. by rewrite Hl.
    + assert (dict_get (if pd_notna c5 then str c5 else "Geral") fs = None)
        as Hnone by (by destruct (dict_get _ fs); [destruct Hknown; eexists|]).
      apply dict_get_None in Hnone.
      by rewrite dict_set_new, dict_get_snoc by done.
Qed.

(** X13.  Names made up for rows without a name differ from row to
    row: two rows at different positions, both without a name and both
    kept, give points with different names. *)
Theorem made_up_names_differ i j (row row' : Row) c c' r r' :
  i ≠ j →
  row !! 1 = Some c → pd_notna c = false →
  row' !! 1 = Some c' → pd_notna c' = false →
  extract i row = inr (Some r) → extract j row' = inr (Some r') →
  name r ≠ name r'.
Proof.
  intros Hij H1 Hc H1' Hc'
    (? & ? & ? & ? & ? & E1 & _ & _ & _ & _ & _ & _ & Hn & _)%extract_Some_inv
    (? & ? & ? & ? & ? & E1' & _ & _ & _ & _ & _ & _ & Hn' & _)%extract_Some_inv.
  rewrite H1 in E1. rewrite H1' in E1'. simplify_eq.
  rewrite Hc in Hn. rewrite Hc' in Hn'. rewrite Hn, Hn'.
  intros Heq%String.app_inj%(inj pretty). lia.
Qed.

End States.

(** ** The name of the file offered for download *)

Section FileName.

Lemma starts_with_spec old s :
  starts_with old s = true ↔ ∃ b, s = old +:+ b.
Proof.
  revert s. induction old as [|a old IH]; intros s.
  - split; [by exists s|done].
  - destruct s as [|c s]; simpl.
    + split; [done|by intros [b ?]].
    + rewrite andb_true_iff, bool_decide_eq_true, IH. split.
      * intros [-> [b ->]]. by exists b.
      * intros [b [= -> ->]]. split; [done|by exists b].
Qed.

Lemma occurs_tail old c s : occurs old s → occurs old (String c s).
Proof. intros (a & b & ->). by exists (String c a), b. Qed.

Lemma replace_from_absent old new s :
  ¬ occurs old s → replace_from old new 0 s = s.
Proof.
  induction s as [|c s IH]; intros Hno; [done|].
  cbn [replace_from].
  destruct (starts_with old (String c s)) eqn:Hs.
  - destruct Hno. apply starts_with_spec in Hs as [b ->]. by exists "", b.
  - f_equal. apply IH. intros Hocc. by apply Hno, occurs_tail.
Qed.

(** X14.  A name without ".xlsx" in it is offered unchanged: so is a
    name whose extension is written in capitals. *)
Theorem name_without_xlsx_is_kept name :
  ¬ occurs ".xlsx" name → download_file_name name = name.
Proof.
  intros Hno. unfold download_file_name, str_replace.
  rewrite decide_False by done. by apply replace_from_absent.
Qed.

(** X15.  The first ".xlsx" of the name becomes ".kml", and so does
    every later one: what follows the first occurrence is treated in
    the same way, wherever in the name it stands. *)
Theorem every_xlsx_becomes_kml a b :
  ¬ occurs ".xlsx" a →
  download_file_name (a +:+ ".xlsx" +:+ b)
  = a +:+ ".kml" +:+ download_file_name b.
Proof.
  unfold download_file_name, str_replace. rewrite !decide_False by done.
  induction a as [|c a IH]; intros Hno; [done|].
  change (String c a +:+ ".xlsx" +:+ b) with (String c (a +:+ ".xlsx" +:+ b)).
  cbn [replace_from].
  destruct (starts_with ".xlsx" (String c (a +:+ ".xlsx" +:+ b))) eqn:Hs.
  - destruct Hno. apply starts_with_spec in Hs as [b' Hs].
    clear IH.
    destruct a as [|c2 [|c3 [|c4 [|c5 a]]]]; cbv in Hs; simplify_eq.
    by exists "", a.
  - change (String c a +:+ ?x) with (String c (a +:+ x)).
    f_equal. apply IH. intros Hocc. by apply Hno, occurs_tail.
Qed.

Lemma contains_spec old s : contains old s = true ↔ occurs old s.
Proof.
  induction s as [|c s IH].
  - simpl. rewrite orb_false_r, starts_with_spec. split.
    + intros [b ->]. by exists "", b.
    + intros ([|c a] & b & Hs); [by exists b|done].
  - cbn [contains]. rewrite orb_true_iff, IH, starts_with_spec. split.
    + intros [[b ->]|Hocc]; [by exists "", b|by apply occurs_tail].
    + intros ([|c' a] & b & Hs); [left; by exists b|right].
      injection Hs as -> ->. by exists a, b.
Qed.

Lemma not_occurs old s : contains old s = false → ¬ occurs old s.
Proof. intros H Hocc%contains_spec. congruence. Qed.

End FileName.

(** ** Edge cases and invariants of the store *)

Section Edges.
Context {L : PyLib} {Al : Allocator}.

Lemma filter_eq_NoDup (x : option string) l :
  NoDup l → x ∈ l → length (filter (λ y, y = x) l) = 1.
Proof.
  induction 1 as [|y l Hy Hnd IH]; [by intros ?%elem_of_nil|].
  rewrite elem_of_cons, filter_cons. intros [->|Hx].
  - rewrite decide_True by done. simpl. f_equal.
    apply length_zero_iff_nil, filter_none, Forall_forall.
    by intros z Hz ->.
  - rewrite decide_False by (by intros ->). auto.
Qed.

Lemma process_row_store total_rows ir st r st' :
  process_row total_rows ir st = (r, st') →
  (∀ l, is_Some (store st !! l) ↔ l ∈ document st) →
  (∀ l, is_Some (store st' !! l) ↔ l ∈ document st').
Proof.
  destruct ir as [i row], st as [σ doc fs u].
  unfold process_row, iloc.
  unfold mbind, M_bind, mret, M_ret, show, raise; cbn.
  destruct (row !! 1) as [c1|]; [|by intros [= <- <-]].
  destruct (row !! 2) as [lat|]; [|by intros [= <- <-]].
  destruct (row !! 3) as [lon|]; [|by intros [= <- <-]].
  destruct (row !! 5) as [c5|]; [|by intros [= <- <-]].
  destruct (row !! 8) as [c8|]; [|by intros [= <- <-]]. cbn.
  destruct (try_float lat lon) as [e'|[la lo]];
    [destruct (caught e'); by intros [= <- <-]|].
  unfold folders_contains, dict_contains, folders_get, add_placemark; cbn.
  case_bool_decide as Hknown; cbn.
  - destruct Hknown as [l Hl]. rewrite Hl. intros [= <- <-] Hdom l'. simpl.
    by rewrite lookup_alter_is_Some.
  - assert (dict_get (if pd_notna c5 then str c5 else "Geral") fs = None)
      as Hnone by (by destruct (dict_get _ fs); [destruct Hknown; eexists|]).
    apply dict_get_None in Hnone.
    rewrite dict_set_new, dict_get_snoc by done. cbn.
    intros [= <- <-] Hdom l'. simpl in *.
    rewrite lookup_alter_is_Some, lookup_insert_is_Some, elem_of_app,
      list_elem_of_singleton, Hdom.
    split; [intros [<-|[? ?]]; auto|].
    intros [? | ->]; [|auto]. destruct (decide (alloc σ = l')); auto.
Qed.

Lemma for_each_store total_rows irows st r st' :
  for_each (process_row total_rows) irows st = (r, st') →
  (∀ l, is_Some (store st !! l) ↔ l ∈ document st) →
  (∀ l, is_Some (store st' !! l) ↔ l ∈ document st').
Proof.
  revert st. induction irows as [|ir irows IH]; intros st.
  - by intros [= <- <-].
  - cbn [for_each]. unfold mbind, M_bind.
    destruct (process_row total_rows ir st) as [[e|[]] st1] eqn:Hrow.
    + intros [= <- <-]. by eapply process_row_store.
    + intros Hrest Hdom. eapply IH; [done|]. by eapply process_row_store.
Qed.

(** X16.  A table with its nine columns and no row: the loop body is
    never entered, so no quotient by the number of rows is formed; the
    document has an empty Document element, and the page reports zero
    rows, zero folders and no folder name. *)
Theorem table_without_rows df xml :
  9 ≤ length (columns df) → data df = [] →
  xml_pretty (Elem "kml" [("xmlns", "http://www.opengis.net/kml/2.2")] None
                [Elem "Document" [] None []]) = inr xml →
  build df
  = inr (Elem "kml" [("xmlns", "http://www.opengis.net/kml/2.2")] None
           [Elem "Document" [] None []])
  ∧ main df
    = [st_progress 0 1; st_empty; st_empty; st_empty; st_success;
       st_download_button xml; st_info 0 0 ""].
Proof.
  intros Hcols Hdata Hxml. split.
  - unfold build, iterrows. by rewrite Hdata.
  - rewrite main_spec. unfold spec_main, iterrows.
    rewrite decide_False by lia. rewrite Hdata. cbn -[xml_pretty].
    change (document_tree []) with
      (Elem "kml" [("xmlns", "http://www.opengis.net/kml/2.2")] None
         [Elem "Document" [] None []]).
    by rewrite Hxml.
Qed.

(** X17.  The folder of the rows without a folder is not set apart
    from a folder that a cell names Geral: a kept row whose folder
    cell is empty and a kept row whose folder cell reads Geral have
    their points in the same Folder element, the only one of that
    name. *)
Theorem missing_folder_joins_Geral df tree i j (row row' : Row) c c' r r' :
  build df = inr tree →
  data df !! i = Some row → data df !! j = Some row' →
  row !! 5 = Some c → pd_notna c = false →
  row' !! 5 = Some c' → pd_notna c' = true → str c' = "Geral" →
  extract i row = inr (Some r) → extract j row' = inr (Some r') →
  placemark_of r ∈ placemarks_in "Geral" tree
  ∧ placemark_of r' ∈ placemarks_in "Geral" tree
  ∧ length (filter (λ n, n = Some "Geral") (folder_names tree)) = 1.
Proof.
  intros Hbuild Hi Hj H5 Hc H5' Hc' Hstr Hex Hex'.
  pose proof (row_placemark _ _ _ _ _ Hbuild Hi Hex) as Hp.
  pose proof (row_placemark _ _ _ _ _ Hbuild Hj Hex') as Hp'.
  assert (r ∈ records (iterrows df)) as Hr.
  { apply elem_of_records. exists (i, row).
    split; [by apply elem_of_iterrows|done]. }
  apply extract_Some_inv in Hex
    as (? & ? & ? & ? & ? & _ & _ & _ & E5 & _ & _ & _ & _ & Hf & _).
  apply extract_Some_inv in Hex'
    as (? & ? & ? & ? & ? & _ & _ & _ & E5' & _ & _ & _ & _ & Hf' & _).
  rewrite H5 in E5. rewrite H5' in E5'. simplify_eq.
  rewrite Hc in Hf. rewrite Hc', Hstr in Hf'. rewrite Hf in Hp.
  rewrite Hf' in Hp'. split_and!; [done|done|].
  destruct (build_inr _ _ Hbuild) as [_ ->].
  rewrite folder_names_tree, grouped_names. apply filter_eq_NoDup.
  - apply (NoDup_fmap_2 _), first_seen_NoDup.
  - apply list_elem_of_fmap_2, first_seen_elem_of, list_elem_of_fmap.
    by exists r.
Qed.

(** X18.  Between two rows the store holds the children of the
    Document and nothing else: every Folder made is attached, and
    nothing is attached that was not made. *)
Theorem store_is_the_document st :
  reachable st → ∀ l, is_Some (store st !! l) ↔ l ∈ document st.
Proof.
  intros (total_rows & irows & Hrun). eapply for_each_store; [done|].
  intros l. simpl. rewrite lookup_empty, elem_of_nil.
  split; [by intros [? ?]|done].
Qed.

End Edges.

(** ** Allocation *)

Section Allocation.
Context {L : PyLib}.

(** X19.  The page, and with it the text offered for download, and the
    tree that is serialised are the same whichever locations the
    allocator hands out for the Folder elements: the identity of the
    objects the loop makes does not show in what it writes. *)
Theorem page_and_tree_independent_of_allocation (A1 A2 : Allocator) df :
  @main L A1 df = @main L A2 df ∧ @build L A1 df = @build L A2 df.
Proof.
  split.
  - by rewrite !main_spec.
  - unfold build. by rewrite !build_rows_spec.
Qed.

End Allocation.

(** ** Runs of the further properties *)

Section MoreRuns.
Import Examples MoreExamples.
#[local] Existing Instance Reference.lib.
#[local] Existing Instance Reference.first_free.

(** [str.replace] as the interpreter computes it. *)
Example replace_samples :
  str_replace "" "-" "abc" = "-a-b-c-"
  ∧ str_replace "" "-" "" = "-"
  ∧ str_replace "aa" "b" "aaa" = "ba"
  ∧ download_file_name "a.xlsx.xlsx" = "a.kml.kml"
  ∧ download_file_name ".xl.xlsxsx.XLSX" = ".xl.kmlsx.XLSX".
Proof. vm_compute. done. Qed.

Lemma page_of_successful_run_witness :
  9 ≤ length (columns sample)
  ∧ build sample = inr sample_tree
  ∧ xml_pretty sample_tree = inr sample_xml
  ∧ main sample
    = [st_progress 0 1; st_empty]
      ++ rows_events (length (data sample)) (length (data sample))
      ++ [st_empty; st_empty; st_success; st_download_button sample_xml;
          st_info (length (data sample)) (length (folder_elements sample_tree))
            (String.concat ", "
               (first_seen (folderName <$> records (iterrows sample))))].
Proof.
  split; [vm_compute; lia|]. split; [vm_compute; reflexivity|].
  split; [vm_compute; reflexivity|].
  apply (page_of_successful_run sample sample_tree sample_xml);
    [vm_compute; lia | vm_compute; reflexivity | vm_compute; reflexivity].
Defined.

Lemma page_of_failed_row_witness :
  9 ≤ length (columns overflowing)
  ∧ build overflowing = inl OverflowError
  ∧ ∃ k row,
      data overflowing !! k = Some row ∧ extract k row = inl OverflowError
      ∧ (∀ j row', j < k → data overflowing !! j = Some row' →
         ∃ o, extract j row' = inr o)
      ∧ main overflowing
        = [st_progress 0 1; st_empty]
          ++ rows_events (length (data overflowing)) (S k)
          ++ [st_error (ProcessingError OverflowError)].
Proof.
  split; [vm_compute; lia|]. split; [vm_compute; reflexivity|].
  apply (page_of_failed_row overflowing OverflowError);
    [vm_compute; lia | vm_compute; reflexivity].
Defined.

Lemma page_of_failed_serialisation_witness :
  9 ≤ length (columns unserialisable)
  ∧ build unserialisable = inr unserialisable_tree
  ∧ xml_pretty unserialisable_tree = inl ExpatError
  ∧ main unserialisable
    = [st_progress 0 1; st_empty]
      ++ rows_events (length (data unserialisable))
                     (length (data unserialisable))
      ++ [st_error (ProcessingError ExpatError)].
Proof.
  split; [vm_compute; lia|]. split; [vm_compute; reflexivity|].
  split; [vm_compute; reflexivity|].
  apply (page_of_failed_serialisation unserialisable unserialisable_tree
           ExpatError);
    [vm_compute; lia | vm_compute; reflexivity | vm_compute; reflexivity].
Defined.

Lemma rows_fail_only_by_overflow_witness :
  9 ≤ length (columns overflowing)
  ∧ rectangular overflowing
  ∧ build overflowing = inl OverflowError
  ∧ OverflowError = OverflowError
  ∧ ∃ k row c, data overflowing !! k = Some row
      ∧ (row !! 2 = Some c ∨ row !! 3 = Some c) ∧ too_large c = true.
Proof.
  assert (rectangular overflowing) as Hrect
    by (apply (bool_decide_unpack _); vm_compute; exact I).
  split; [vm_compute; lia|]. split; [exact Hrect|].
  split; [vm_compute; reflexivity|].
  apply (rows_fail_only_by_overflow overflowing OverflowError);
    [vm_compute; lia | exact Hrect | vm_compute; reflexivity].
Defined.

Lemma document_shape_witness :
  build sample = inr sample_tree
  ∧ ∃ fs, sample_tree
          = Elem "kml" [("xmlns", "http://www.opengis.net/kml/2.2")] None
              [Elem "Document" [] None fs]
          ∧ Forall folder_shaped fs.
Proof.
  split; [vm_compute; reflexivity|].
  apply (document_shape sample sample_tree). vm_compute; reflexivity.
Defined.

Lemma folders_le_placemarks_le_rows_witness :
  build sample = inr sample_tree
  ∧ length (folder_elements sample_tree) ≤ length (placemarks sample_tree)
  ∧ length (placemarks sample_tree) ≤ length (data sample).
Proof.
  split; [vm_compute; reflexivity|].
  apply (folders_le_placemarks_le_rows sample sample_tree).
  vm_compute; reflexivity.
Defined.

Lemma placemarks_are_the_records_witness :
  build sample = inr sample_tree
  ∧ placemarks sample_tree ≡ₚ placemark_of <$> records (iterrows sample).
Proof.
  split; [vm_compute; reflexivity|].
  apply (placemarks_are_the_records sample sample_tree).
  vm_compute; reflexivity.
Defined.

Lemma more_rows_only_append_witness :
  build_rows 5 (take 2 (iterrows sample) ++ drop 2 (iterrows sample))
  = inr sample_tree
  ∧ ∃ tree, build_rows 5 (take 2 (iterrows sample)) = inr tree
      ∧ ∀ j f, folder_elements tree !! j = Some f →
          ∃ cs extra,
            f = Elem "Folder" [] None cs
            ∧ folder_elements sample_tree !! j
              = Some (Elem "Folder" [] None (cs ++ extra)).
Proof.
  split; [vm_compute; reflexivity|].
  apply (more_rows_only_append 5 (take 2 (iterrows sample))
           (drop 2 (iterrows sample)) sample_tree).
  vm_compute; reflexivity.
Defined.

Lemma reachable_midway : reachable sample_midway.
Proof. exists 5, (take 2 (iterrows sample)). vm_compute. reflexivity. Qed.

Lemma folders_and_document_agree_witness :
  reachable sample_midway
  ∧ document sample_midway = (folders sample_midway).*2
  ∧ NoDup (folders sample_midway).*1 ∧ NoDup (folders sample_midway).*2
  ∧ ∀ n l, (n, l) ∈ folders sample_midway →
      ∃ p ps,
        store sample_midway !! l
        = Some (Elem "Folder" [] None (Elem "name" [] (Some n) [] :: p :: ps))
        ∧ Forall placemark_shaped (p :: ps).
Proof.
  split; [apply reachable_midway|].
  apply (folders_and_document_agree sample_midway). apply reachable_midway.
Defined.

Lemma failing_row_changes_only_the_page_witness :
  let row := [PyInt 2; PyStr "Pt B"; PyInt (10 ^ 400);
              number true 6076045511015740 (-47); blank; PyStr "RJ"; blank;
              blank; blank] in
  process_row 3 (1, row) sample_midway
  = (inl OverflowError,
     State (store sample_midway) (document sample_midway)
           (folders sample_midway) (ui sample_midway ++ row_events 3 1))
  ∧ (OverflowError = IndexError ∨ OverflowError = OverflowError)
  ∧ State (store sample_midway) (document sample_midway)
          (folders sample_midway) (ui sample_midway ++ row_events 3 1)
    = State (store sample_midway) (document sample_midway)
            (folders sample_midway) (ui sample_midway ++ row_events 3 1).
Proof.
  intros row. split; [vm_compute; reflexivity|].
  apply (failing_row_changes_only_the_page 3 1 row sample_midway
           OverflowError).
  vm_compute; reflexivity.
Defined.

Lemma made_up_names_differ_witness :
  let row := [PyInt 3; blank; number true 8893201889173176 (-49);
              number true 6740185718564533 (-47); blank; blank; blank;
              blank; blank] in
  ∃ r r', extract 2 row = inr (Some r) ∧ extract 6 row = inr (Some r')
          ∧ name r = "Ponto_3" ∧ name r' = "Ponto_7" ∧ name r ≠ name r'.
Proof.
  intros row.
  destruct (extract 2 row) as [|[r|]] eqn:Hr; [discriminate Hr| |discriminate Hr].
  destruct (extract 6 row) as [|[r'|]] eqn:Hr';
    [discriminate Hr'| |discriminate Hr'].
  exists r, r'. split; [reflexivity|]. split; [reflexivity|].
  split; [by injection Hr as <-|]. split; [by injection Hr' as <-|].
  apply (made_up_names_differ 2 6 row row blank blank r r');
    [lia | reflexivity | reflexivity | reflexivity | reflexivity
    | exact Hr | exact Hr'].
Defined.

Lemma name_without_xlsx_is_kept_witness :
  ¬ occurs ".xlsx" "pontos.XLSX"
  ∧ download_file_name "pontos.XLSX" = "pontos.XLSX".
Proof.
  assert (¬ occurs ".xlsx" "pontos.XLSX") as Hno
    by (apply not_occurs; vm_compute; reflexivity).
  split; [exact Hno|].
  apply (name_without_xlsx_is_kept "pontos.XLSX"). exact Hno.
Defined.

Lemma every_xlsx_becomes_kml_witness :
  ¬ occurs ".xlsx" "pontos"
  ∧ download_file_name ("pontos" +:+ ".xlsx" +:+ ".xlsx")
    = "pontos" +:+ ".kml" +:+ download_file_name ".xlsx".
Proof.
  assert (¬ occurs ".xlsx" "pontos") as Hno
    by (apply not_occurs; vm_compute; reflexivity).
  split; [exact Hno|].
  apply (every_xlsx_becomes_kml "pontos" ".xlsx"). exact Hno.
Defined.

Lemma table_without_rows_witness :
  9 ≤ length (columns no_rows) ∧ data no_rows = []
  ∧ build no_rows
    = inr (Elem "kml" [("xmlns", "http://www.opengis.net/kml/2.2")] None
             [Elem "Document" [] None []])
  ∧ ∃ xml, main no_rows
           = [st_progress 0 1; st_empty; st_empty; st_empty; st_success;
              st_download_button xml; st_info 0 0 ""].
Proof.
  split; [vm_compute; lia|]. split; [reflexivity|].
  destruct (xml_pretty
              (Elem "kml" [("xmlns", "http://www.opengis.net/kml/2.2")] None
                 [Elem "Document" [] None []])) as [e|xml] eqn:Hxml;
    [discriminate Hxml|].
  destruct (table_without_rows no_rows xml) as [Hbuild Hmain];
    [vm_compute; lia | reflexivity | exact Hxml |].
  split; [exact Hbuild|]. exists xml. exact Hmain.
Defined.

Lemma missing_folder_joins_Geral_witness :
  build geral = inr geral_tree
  ∧ length (placemarks_in "Geral" geral_tree) = 2
  ∧ length (filter (λ n, n = Some "Geral") (folder_names geral_tree)) = 1.
Proof.
  split; [vm_compute; reflexivity|]. split; [vm_compute; reflexivity|].
  pose (row := [PyInt 2; PyStr "Pt B"; number true 6447690996515655 (-48);
                number true 6076045511015740 (-47); blank; blank; blank;
                blank; blank]).
  pose (row' := [PyInt 1; PyStr "Pt A"; number true 6628876439024304 (-48);
                 number true 6563053515720517 (-47); blank; PyStr "Geral";
                 blank; blank; blank]).
  destruct (extract 1 row) as [|[r|]] eqn:Hr;
    [discriminate Hr| |discriminate Hr].
  destruct (extract 0 row') as [|[r'|]] eqn:Hr';
    [discriminate Hr'| |discriminate Hr'].
  destruct (missing_folder_joins_Geral geral geral_tree 1 0 row row'
              blank (PyStr "Geral") r r') as (_ & _ & Hone);
    [vm_compute; reflexivity | reflexivity | reflexivity | reflexivity
    | reflexivity | reflexivity | reflexivity | reflexivity
    | exact Hr | exact Hr' |].
  exact Hone.
Defined.

Lemma store_is_the_document_witness :
  reachable sample_midway
  ∧ ∀ l, is_Some (store sample_midway !! l) ↔ l ∈ document sample_midway.
Proof.
  split; [apply reachable_midway|].
  apply (store_is_the_document sample_midway). apply reachable_midway.
Defined.

(** C1, counterexample.  The one row of [spelt_inf] has its coordinate
    cells filled in and a latitude spelt inf: no row of the table has
    coordinates that both parse as numbers, and the document has a
    Placemark, with inf among its coordinates. *)
Lemma spelt_inf_is_counted :
  9 ≤ length (columns spelt_inf)
  ∧ build spelt_inf = inr spelt_inf_tree
  ∧ length (filter (λ row, both_parse_as_numbers row) (data spelt_inf)) = 0
  ∧ length (placemarks spelt_inf_tree) = 1
  ∧ coordinates_text <$> placemarks spelt_inf_tree
    = [Some "-46.6333,inf,0"]
  ∧ length (placemarks spelt_inf_tree)
    ≠ length (filter (λ row, both_parse_as_numbers row) (data spelt_inf)).
Proof. split_and!; [vm_compute; lia|vm_compute; done..]. Qed.

Lemma unused_columns_interfere_only_by_dtype_witness :
  well_formed_frame numbered_with_text
  ∧ well_formed_frame numbered_with_more
  ∧ 9 ≤ length (frame_columns numbered_with_text)
  ∧ 9 ≤ length (frame_columns numbered_with_more)
  ∧ frame_len numbered_with_text = frame_len numbered_with_more
  ∧ find_common_type (column_dtype <$> frame_data numbered_with_text)
    = find_common_type (column_dtype <$> frame_data numbered_with_more)
  ∧ same_used_columns numbered_with_text numbered_with_more
  ∧ main (to_table numbered_with_text) = main (to_table numbered_with_more)
  ∧ build (to_table numbered_with_text)
    = build (to_table numbered_with_more).
Proof.
  assert (same_used_columns numbered_with_text numbered_with_more) as H
    by (repeat constructor).
  assert (well_formed_frame numbered_with_text) as Hwf
    by (split; [reflexivity | repeat constructor]).
  assert (well_formed_frame numbered_with_more) as Hwf'
    by (split; [reflexivity | repeat constructor]).
  split; [exact Hwf|]. split; [exact Hwf'|].
  split; [vm_compute; lia|]. split; [vm_compute; lia|].
  split; [reflexivity|]. split; [vm_compute; reflexivity|].
  split; [exact H|].
  apply (unused_columns_interfere_only_by_dtype numbered_with_text
           numbered_with_more);
    [exact Hwf | exact Hwf' | vm_compute; lia | vm_compute; lia
    | reflexivity | vm_compute; reflexivity | exact H].
Defined.

(** C10, counterexample.  [numbered] and [numbered_with_text] are well
    formed, pass the column check and differ in their first column
    only, which the loop does not read; every row of the one agrees
    with the row of the other at the positions 1, 2, 3, 5 and 8.  In
    the first the rows come as doubles and the points are named 7.0 and
    12.0; in the second they come as objects and the points are named
    7 and 12. *)
Lemma first_column_changes_the_names :
  well_formed_frame numbered ∧ well_formed_frame numbered_with_text
  ∧ 9 ≤ length (frame_columns numbered)
  ∧ 9 ≤ length (frame_columns numbered_with_text)
  ∧ same_used_columns numbered numbered_with_text
  ∧ drop 1 (frame_data numbered) = drop 1 (frame_data numbered_with_text)
  ∧ build (to_table numbered) = inr numbered_tree
  ∧ build (to_table numbered_with_text) = inr numbered_with_text_tree
  ∧ findtext "name" <$> placemarks numbered_tree = [Some "7.0"; Some "12.0"]
  ∧ findtext "name" <$> placemarks numbered_with_text_tree
    = [Some "7"; Some "12"]
  ∧ build (to_table numbered) ≠ build (to_table numbered_with_text)
  ∧ main (to_table numbered) ≠ main (to_table numbered_with_text).
Proof.
  split_and!; try (vm_compute; done); repeat constructor.
Qed.

End MoreRuns.
